(** * ZarKos dashboard server ([src/server.js]): a shallow embedding

    The dashboard is an Express application: a session/auth gate, page
    handlers that render a view, and JSON handlers that forward one call to
    the bot-hosting API.  The embedding follows the source top to bottom.

    - JavaScript values that reach the handlers (the Discord profile kept in
      the session, request bodies, upstream JSON) are an inductive type;
      [BigInt] is integer arithmetic on [Z].
    - An [async] handler is a computation in a small monad [Async] that reads
      the answers of the upstream HTTP service, writes a trace of the HTTP
      requests and console lines it produced, and may throw.
    - The session store of [express-session] is a finite map from session ids
      to stored sessions; one request is one step of [handle].
    - What Express puts on the wire for the response that a handler set
      (the serialised JSON body, the 304 of a conditional [GET]) is
      [delivered].

    A JavaScript string is modelled by a Rocq [string] whose characters are
    code units below 256. *)

From Stdlib Require Import ZArith NArith Ascii String List Bool Lia.
From Stdlib Require Import DecimalString DecimalN.
From Stdlib Require HexadecimalString.
From stdpp Require Import base option list strings gmap.

Import ListNotations.
Local Open Scope string_scope.
Local Open Scope Z_scope.
#[local] Set Warnings "-register-all".

(** ** JavaScript values *)

Module Js.

(** A Number: a finite double is [m * 2^e]; zero carries no sign here. *)
Inductive number : Type :=
| Finite (m e : Z)
| NaN
| Infinity (negative : bool).

(** The primitive values of JSON, and [undefined] for a missing property. *)
Inductive primitive : Type :=
| Undefined
| Null
| Bool (b : bool)
| Num (n : number)
| Str (s : string).

(** What [JSON.parse] produces: primitives, arrays and objects (the fields
    of an object in order, each key once). *)
Inductive value : Type :=
| Prim (p : primitive)
| Arr (items : list value)
| Obj (fields : list (string * value)).

(** The errors the server can see: a rejected [axios] call, which carries
    its message, the three built-in errors, and an error that a middleware
    passes to [next], known by its [name]. *)
Inductive Exn : Type :=
| AxiosError (message : string)
| TypeError
| RangeError
| SyntaxError
| NamedError (name : string).

(** [error.name] *)
Definition name (e : Exn) : string :=
  match e with
  | AxiosError _ => "AxiosError"
  | TypeError => "TypeError"
  | RangeError => "RangeError"
  | SyntaxError => "SyntaxError"
  | NamedError n => n
  end.

Definition number_is_zero (n : number) : bool :=
  match n with
  | Finite m _ => m =? 0
  | _ => false
  end.

(** [IsIntegralNumber] and the mathematical value of an integral Number. *)
Definition number_integer (n : number) : option Z :=
  match n with
  | Finite m e =>
      if 0 <=? e then Some (m * 2 ^ e)
      else if m mod 2 ^ (- e) =? 0 then Some (m / 2 ^ (- e))
      else None
  | _ => None
  end.

(** [ToBoolean], the test behind [||], [?:] and [if]. *)
Definition truthy (v : value) : bool :=
  match v with
  | Prim (Undefined | Null) => false
  | Prim (Bool b) => b
  | Prim (Num NaN) => false
  | Prim (Num n) => negb (number_is_zero n)
  | Prim (Str s) => negb (String.eqb s "")
  | Arr _ | Obj _ => true
  end.

(** [a || b] on values. *)
Definition or_else (a b : value) : value := if truthy a then a else b.

Fixpoint own_property (fields : list (string * value)) (key : string) : value :=
  match fields with
  | [] => Prim Undefined
  | (k, v) :: rest => if String.eqb k key then v else own_property rest key
  end.

(** [v.guilds]: reading a property of [undefined] or [null] throws; values
    other than objects have no such property. *)
Definition get_guilds (v : value) : Exn + value :=
  match v with
  | Prim (Undefined | Null) => inl TypeError
  | Obj fields => inr (own_property fields "guilds")
  | _ => inr (Prim Undefined)
  end.

(** [String.prototype.includes]. *)
Fixpoint string_includes (s search : string) : bool :=
  String.prefix search s ||
  match s with
  | EmptyString => false
  | String _ rest => string_includes rest search
  end.

(** [SameValueZero] against a string. *)
Definition same_value_zero_str (search : string) (v : value) : bool :=
  match v with
  | Prim (Str s) => String.eqb s search
  | _ => false
  end.

(** [x.includes(search)] for a string [search]: arrays and strings have the
    method, every other object or primitive does not. *)
Definition includes (x : value) (search : string) : Exn + bool :=
  match x with
  | Arr items => inr (existsb (same_value_zero_str search) items)
  | Prim (Str s) => inr (string_includes s search)
  | _ => inl TypeError
  end.

(** *** [BigInt(value)] *)

Definition is_StrWhiteSpaceChar (c : ascii) : bool :=
  let n := Z.of_nat (nat_of_ascii c) in
  ((9 <=? n) && (n <=? 13)) || (n =? 32) || (n =? 160).

Fixpoint trim_start (s : string) : string :=
  match s with
  | EmptyString => EmptyString
  | String c rest => if is_StrWhiteSpaceChar c then trim_start rest else s
  end.

Definition string_rev (s : string) : string :=
  string_of_list_ascii (List.rev (list_ascii_of_string s)).

Definition trim (s : string) : string :=
  string_rev (trim_start (string_rev (trim_start s))).

Definition digit_value (radix : Z) (c : ascii) : option Z :=
  let n := Z.of_nat (nat_of_ascii c) in
  let d :=
    if (48 <=? n) && (n <=? 57) then n - 48
    else if (97 <=? n) && (n <=? 102) then n - 87
    else if (65 <=? n) && (n <=? 70) then n - 55
    else 16 in
  if d <? radix then Some d else None.

Fixpoint digits_value (radix : Z) (acc : Z) (s : string) : option Z :=
  match s with
  | EmptyString => Some acc
  | String c rest =>
      match digit_value radix c with
      | Some d => digits_value radix (acc * radix + d) rest
      | None => None
      end
  end.

(** One or more digits of the radix. *)
Definition Digits (radix : Z) (s : string) : option Z :=
  match s with
  | EmptyString => None
  | _ => digits_value radix 0 s
  end.

(** [StrIntegerLiteral]: a signed decimal, or an unsigned literal with a
    [0x], [0o] or [0b] prefix. *)
Definition StrIntegerLiteral (s : string) : option Z :=
  match s with
  | String "0" (String ("x" | "X") rest) => Digits 16 rest
  | String "0" (String ("o" | "O") rest) => Digits 8 rest
  | String "0" (String ("b" | "B") rest) => Digits 2 rest
  | String "+" rest => Digits 10 rest
  | String "-" rest => Z.opp <$> Digits 10 rest
  | _ => Digits 10 s
  end.

(** [StringToBigInt]: white space around the literal is dropped and the
    empty string is zero. *)
Definition StringToBigInt (s : string) : option Z :=
  match trim s with
  | EmptyString => Some 0
  | t => StrIntegerLiteral t
  end.

(** [BigInt(p)] for a primitive [p]: a Number must be integral, a string
    must be an integer literal, [undefined] and [null] do not convert. *)
Definition BigInt (p : primitive) : Exn + Z :=
  match p with
  | Num n =>
      match number_integer n with
      | Some z => inr z
      | None => inl RangeError
      end
  | Undefined | Null => inl TypeError
  | Bool b => inr (if b then 1 else 0)
  | Str s =>
      match StringToBigInt s with
      | Some z => inr z
      | None => inl SyntaxError
      end
  end.

End Js.

(** ** Data model *)

(** One entry of [profile.guilds], as Discord sends it; [permissions] is a
    number or a string of digits, depending on the API version. *)
Module Guild.
Record t : Type := {
  id : string;
  name : string;
  icon : option string;            (* [None] is [null] *)
  permissions : Js.primitive
}.
End Guild.

(** The Discord profile that the OAuth strategy hands to [done]; it is what
    the session stores and what [req.user] holds. *)
Module Profile.
Record t : Type := {
  id : string;
  username : string;
  avatar : option string;
  guilds : option (list Guild.t)   (* [None] is a missing [guilds] *)
}.
End Profile.

(** One element of the [guilds] array passed to the selector view. *)
Module GuildEntry.
Record t : Type := {
  id : string;
  name : string;
  icon : option string;
  botInGuild : bool
}.
End GuildEntry.

(** ** Configuration read from [process.env] *)

Section Config.

Variable env : gmap string string.

(** [process.env.NAME || fallback] *)
Definition env_or (name fallback : string) : string :=
  match env !! name with
  | Some s => if String.eqb s "" then fallback else s
  | None => fallback
  end.

Record BotApi : Type := { url : string; key : string }.

Definition BOT_API : BotApi := {|
  url := env_or "BOT_API_URL" "http://fi6.bot-hosting.net:22280";
  key := env_or "BOT_API_KEY" "your-api-key"
|}.

Record BotConfig : Type := {
  name : string;
  logoUrl : string;
  themeColor : string;
  supportUrl : string;
  inviteUrl : option string;
  privacyUrl : string;
  termsUrl : string;
  clientId : option string
}.

Definition BOT_CONFIG : BotConfig := {|
  name := "ZarKos Ultimate";
  logoUrl := env_or "DASHBOARD_LOGO_URL" "https://i.imgur.com/AfFp7pu.png";
  themeColor := "#FFC107";
  supportUrl := env_or "SUPPORT_SERVER" "https://discord.gg/mnbQFftqby";
  inviteUrl := env !! "BOT_INVITE_URL";
  privacyUrl := env_or "PRIVACY_POLICY_URL" "/privacy";
  termsUrl := env_or "TERMS_OF_SERVICE_URL" "/terms";
  clientId := env !! "CLIENT_ID"
|}.

End Config.

(** ** Requests, responses and effects *)

(** The part of Express's [req] that the handlers read. *)
Module Req.
Record t : Type := {
  user : option Profile.t;         (* [req.user], set by [passport.session()] *)
  guildId : string;                (* [req.params.guildId] *)
  body : Js.value                  (* [req.body], set by [express.json()] *)
}.
End Req.

(** A value handed to a view. *)
Inductive Local : Type :=
| LUser (u : option Profile.t)
| LGuilds (gs : list GuildEntry.t)
| LGuild (v : Js.value)
| LBotConfig (c : BotConfig)
| LText (s : option string).

Module Res.
Inductive Body : Type :=
| Location (path : string)                           (* [res.redirect] *)
| View (view : string) (locals : list (string * Local))   (* [res.render] *)
| Text (s : string)                                  (* [res.send] *)
| Json (v : Js.value).                               (* [res.json] *)

Record t : Type := { status : Z; body : Body }.

Definition redirect (path : string) : t := {| status := 302; body := Location path |}.
Definition render (view : string) (locals : list (string * Local)) : t :=
  {| status := 200; body := View view locals |}.
Definition send (status : Z) (s : string) : t := {| status := status; body := Text s |}.
Definition json (status : Z) (v : Js.value) : t := {| status := status; body := Json v |}.
End Res.

(** The [config] object given to [axios]. *)
Record AxiosConfig : Type := {
  method : string;
  config_url : string;
  headers : list (string * string);
  data : option Js.value           (* [None]: no [data] property *)
}.

(** The bot-hosting API as the handlers see it through [axios]: a call is
    rejected with a message (transport failure or a status outside 2xx) or
    resolves to the parsed body. *)
Definition Upstream : Type := AxiosConfig -> string + Js.value.

(** An argument of [console.error]. *)
Inductive LogArg : Type :=
| LStr (s : string)
| LMessage (e : Js.Exn)            (* [error.message] *)
| LError (e : Js.Exn).             (* the error object *)

Inductive Event : Type :=
| HttpRequest (config : AxiosConfig)
| ConsoleError (args : list LogArg).

(** An asynchronous computation: it reads the upstream, records the requests
    and console lines in order, and either throws or returns. *)
Definition Async (A : Type) : Type := Upstream -> list Event * (Js.Exn + A).

Module AsyncM.

Definition ret {A} (a : A) : Async A := fun _ => ([], inr a).

Definition bind {A B} (m : Async A) (k : A -> Async B) : Async B :=
  fun up =>
    match m up with
    | (t, inl e) => (t, inl e)
    | (t, inr a) => let '(t', r) := k a up in ((t ++ t')%list, r)
    end.

Definition throw {A} (e : Js.Exn) : Async A := fun _ => ([], inl e).

(** [try { body } catch (error) { handler error }] *)
Definition try_catch {A} (body : Async A) (handler : Js.Exn -> Async A) : Async A :=
  fun up =>
    match body up with
    | (t, inl e) => let '(t', r) := handler e up in ((t ++ t')%list, r)
    | (t, inr a) => (t, inr a)
    end.

(** A synchronous expression that may throw. *)
Definition lift {A} (r : Js.Exn + A) : Async A := fun _ => ([], r).

Definition axios (config : AxiosConfig) : Async Js.value :=
  fun up =>
    ([HttpRequest config],
     match up config with
     | inl message => inl (Js.AxiosError message)
     | inr response_data => inr response_data
     end).

Definition console_error (args : list LogArg) : Async unit :=
  fun _ => ([ConsoleError args], inr tt).

End AsyncM.

Import AsyncM.

Notation "'let*' x ':=' m 'in' k" := (bind m (fun x => k))
  (at level 10, x binder, m at level 100, k at level 200).
Notation "'do' m 'then' k" := (bind m (fun _ => k))
  (at level 10, m at level 100, k at level 200).

(** The synchronous error monad of the array callbacks. *)
Definition bindE {A B} (r : Js.Exn + A) (k : A -> Js.Exn + B) : Js.Exn + B :=
  match r with
  | inl e => inl e
  | inr a => k a
  end.

(** [xs.filter(p)] where the callback may throw. *)
Fixpoint js_filter {A} (p : A -> Js.Exn + bool) (xs : list A) : Js.Exn + list A :=
  match xs with
  | [] => inr []
  | x :: rest =>
      bindE (p x) (fun keep =>
      bindE (js_filter p rest) (fun kept =>
      inr (if keep then x :: kept else kept)))
  end.

(** [xs.map(f)] where the callback may throw. *)
Fixpoint js_map {A B} (f : A -> Js.Exn + B) (xs : list A) : Js.Exn + list B :=
  match xs with
  | [] => inr []
  | x :: rest =>
      bindE (f x) (fun y =>
      bindE (js_map f rest) (fun ys =>
      inr (y :: ys)))
  end.

(** [xs.find(p)] *)
Fixpoint js_find {A} (p : A -> bool) (xs : list A) : option A :=
  match xs with
  | [] => None
  | x :: rest => if p x then Some x else js_find p rest
  end.

(** ** The handlers of [server.js] *)

Section Server.

Variable env : gmap string string.

Import Js.

(** [req.isAuthenticated()] of passport: [req.user] is set. *)
Definition req_isAuthenticated (req : Req.t) : bool :=
  match Req.user req with
  | Some _ => true
  | None => false
  end.

(** Reading a property of [req.user] throws when there is no user. *)
Definition req_user (req : Req.t) : Exn + Profile.t :=
  match Req.user req with
  | Some u => inr u
  | None => inl TypeError
  end.

(** [req.user.guilds || []] *)
Definition userGuilds (user : Profile.t) : list Guild.t :=
  default [] (Profile.guilds user).

Definition isAuthenticated (req : Req.t) (next : Async Res.t) : Async Res.t :=
  if req_isAuthenticated req then next
  else ret (Res.redirect "/").

(** [callBotAPI(endpoint, method = 'GET', data = null)]; a missing argument
    is [None], respectively [undefined]. *)
Definition callBotAPI (endpoint : string) (method : option string) (data : value)
  : Async value :=
  let method := default "GET" method in
  let data := match data with Prim Undefined => Prim Null | d => d end in
  try_catch
    (let config := {|
       method := method;
       config_url := url (BOT_API env) ++ endpoint;
       headers := [("Authorization", "Bearer " ++ key (BOT_API env));
                   ("Content-Type", "application/json")];
       data := if truthy data then Some data else None
     |} in
     let* response_data := axios config in
     ret response_data)
    (fun error =>
       do console_error [LStr ("API Error [" ++ endpoint ++ "]:"); LMessage error] then
       throw error).

(** The callback of [userGuilds.filter]:
    [(BigInt(g.permissions) & 0x20n) === 0x20n]. *)
Definition has_manage_server (g : Guild.t) : Exn + bool :=
  bindE (BigInt (Guild.permissions g)) (fun p =>
  inr (Z.land p 0x20 =? 0x20)).

Definition managedGuilds (userGuilds : list Guild.t) : Exn + list Guild.t :=
  js_filter has_manage_server userGuilds.

(** The callback of [managedGuilds.map]. *)
Definition guild_entry (botGuilds : value) (g : Guild.t) : Exn + GuildEntry.t :=
  let icon :=
    match Guild.icon g with
    | Some i =>
        if truthy (Prim (Str i))
        then Some ("https://cdn.discordapp.com/icons/" ++ Guild.id g ++ "/" ++ i ++ ".png")
        else None
    | None => None
    end in
  bindE (includes botGuilds (Guild.id g)) (fun present =>
  inr {| GuildEntry.id := Guild.id g;
         GuildEntry.name := Guild.name g;
         GuildEntry.icon := icon;
         GuildEntry.botInGuild := present |}).

(** The bot's guilds: [botData.guilds || []], and [[]] when fetching or
    reading them throws. *)
Definition fetch_botGuilds : Async value :=
  try_catch
    (let* botData := callBotAPI "/api/bot/guilds" None (Prim Undefined) in
     let* listed := lift (get_guilds botData) in
     ret (or_else listed (Arr [])))
    (fun error =>
       do console_error [LStr "Failed to fetch bot guilds:"; LMessage error] then
       ret (Arr [])).

(** [GET /dashboard] *)
Definition get_dashboard (req : Req.t) : Async Res.t :=
  try_catch
    (let* user := lift (req_user req) in
     let* managed := lift (managedGuilds (userGuilds user)) in
     let* botGuilds := fetch_botGuilds in
     let* guilds := lift (js_map (guild_entry botGuilds) managed) in
     ret (Res.render "selector"
            [("user", LUser (Req.user req));
             ("guilds", LGuilds guilds);
             ("botConfig", LBotConfig (BOT_CONFIG env));
             ("page", LText (Some "selector"))]))
    (fun error =>
       do console_error [LStr "Dashboard error:"; LError error] then
       ret (Res.send 500 "Error loading dashboard")).

(** [(req.user.guilds || []).find(g => g.id === guildId)] *)
Definition find_userGuild (req : Req.t) : Exn + option Guild.t :=
  bindE (req_user req) (fun user =>
  inr (js_find (fun g => String.eqb (Guild.id g) (Req.guildId req))
               (userGuilds user))).

(** [GET /dashboard/:guildId] *)
Definition get_dashboard_guild (req : Req.t) : Async Res.t :=
  try_catch
    (let guildId := Req.guildId req in
     let* userGuild := lift (find_userGuild req) in
     match userGuild with
     | None => ret (Res.send 403 "Access denied")
     | Some _ =>
         let* guildData := callBotAPI ("/api/guilds/" ++ guildId ++ "/info") None (Prim Undefined) in
         ret (Res.render "dashboard"
                [("user", LUser (Req.user req));
                 ("guild", LGuild guildData);
                 ("botConfig", LBotConfig (BOT_CONFIG env));
                 ("page", LText (Some "overview"))])
     end)
    (fun error =>
       do console_error [LStr "Guild dashboard error:"; LError error] then
       ret (Res.send 500 "Error loading guild dashboard")).

(** [GET /dashboard/:guildId/aichat] *)
Definition get_dashboard_aichat (req : Req.t) : Async Res.t :=
  try_catch
    (let guildId := Req.guildId req in
     let* userGuild := lift (find_userGuild req) in
     match userGuild with
     | None => ret (Res.send 403 "Access denied")
     | Some _ =>
         let* guildData := callBotAPI ("/api/guilds/" ++ guildId ++ "/info") None (Prim Undefined) in
         ret (Res.render "aichat"
                [("user", LUser (Req.user req));
                 ("guild", LGuild guildData);
                 ("botConfig", LBotConfig (BOT_CONFIG env));
                 ("page", LText (Some "aichat"));
                 ("ownerID", LText (env !! "BOT_OWNER_ID"))])
     end)
    (fun error =>
       do console_error [LStr "AI Chat page error:"; LError error] then
       ret (Res.send 500 "Error loading AI Chat page")).

(** [GET /dashboard/:guildId/suggestions] *)
Definition get_dashboard_suggestions (req : Req.t) : Async Res.t :=
  try_catch
    (let guildId := Req.guildId req in
     let* userGuild := lift (find_userGuild req) in
     match userGuild with
     | None => ret (Res.send 403 "Access denied")
     | Some _ =>
         let* guildData := callBotAPI ("/api/guilds/" ++ guildId ++ "/info") None (Prim Undefined) in
         ret (Res.render "suggestions"
                [("user", LUser (Req.user req));
                 ("guild", LGuild guildData);
                 ("botConfig", LBotConfig (BOT_CONFIG env));
                 ("page", LText (Some "suggestions"))])
     end)
    (fun error =>
       do console_error [LStr "Suggestions page error:"; LError error] then
       ret (Res.send 500 "Error loading Suggestions page")).

(** *** API proxy endpoints *)

(** [{ error: message }] *)
Definition error_body (message : string) : value :=
  Obj [("error", Prim (Str message))].

(** [GET /api/guilds/:guildId/channels] *)
Definition get_api_guilds_channels (req : Req.t) : Async Res.t :=
  try_catch
    (let* data := callBotAPI ("/api/guilds/" ++ Req.guildId req ++ "/channels") None (Prim Undefined) in
     ret (Res.json 200 data))
    (fun error => ret (Res.json 500 (error_body "Failed to fetch channels"))).

(** [GET /api/aichat/config/:guildId] *)
Definition get_api_aichat_config (req : Req.t) : Async Res.t :=
  try_catch
    (let* data := callBotAPI ("/api/aichat/config/" ++ Req.guildId req) None (Prim Undefined) in
     ret (Res.json 200 data))
    (fun error => ret (Res.json 500 (error_body "Failed to fetch config"))).

(** [POST /api/aichat/save] *)
Definition post_api_aichat_save (req : Req.t) : Async Res.t :=
  try_catch
    (let* data := callBotAPI "/api/aichat/save" (Some "POST") (Req.body req) in
     ret (Res.json 200 data))
    (fun error => ret (Res.json 500 (error_body "Failed to save config"))).

(** [POST /api/aichat/reset-memory] *)
Definition post_api_aichat_reset_memory (req : Req.t) : Async Res.t :=
  try_catch
    (let* data := callBotAPI "/api/aichat/reset-memory" (Some "POST") (Req.body req) in
     ret (Res.json 200 data))
    (fun error => ret (Res.json 500 (error_body "Failed to reset memory"))).

(** [GET /api/analytics] *)
Definition get_api_analytics (req : Req.t) : Async Res.t :=
  try_catch
    (let* data := callBotAPI "/api/analytics" None (Prim Undefined) in
     ret (Res.json 200 data))
    (fun error => ret (Res.json 500 (error_body "Failed to fetch analytics"))).

(** [GET /api/suggestions/config/:guildId] *)
Definition get_api_suggestions_config (req : Req.t) : Async Res.t :=
  try_catch
    (let* data := callBotAPI ("/api/suggestions/config/" ++ Req.guildId req) None (Prim Undefined) in
     ret (Res.json 200 data))
    (fun error => ret (Res.json 500 (error_body "Failed to fetch config"))).

(** [GET /api/suggestions/stats/:guildId] *)
Definition get_api_suggestions_stats (req : Req.t) : Async Res.t :=
  try_catch
    (let* data := callBotAPI ("/api/suggestions/stats/" ++ Req.guildId req) None (Prim Undefined) in
     ret (Res.json 200 data))
    (fun error => ret (Res.json 500 (error_body "Failed to fetch stats"))).

(** [POST /api/suggestions/setup] *)
Definition post_api_suggestions_setup (req : Req.t) : Async Res.t :=
  try_catch
    (let* data := callBotAPI "/api/suggestions/setup" (Some "POST") (Req.body req) in
     ret (Res.json 200 data))
    (fun error => ret (Res.json 500 (error_body "Failed to setup suggestions"))).

(** [POST /api/suggestions/toggle] *)
Definition post_api_suggestions_toggle (req : Req.t) : Async Res.t :=
  try_catch
    (let* data := callBotAPI "/api/suggestions/toggle" (Some "POST") (Req.body req) in
     ret (Res.json 200 data))
    (fun error => ret (Res.json 500 (error_body "Failed to toggle suggestions"))).

(** *** Public pages *)

(** [GET /] *)
Definition get_root (req : Req.t) : Async Res.t :=
  if req_isAuthenticated req then ret (Res.redirect "/dashboard")
  else ret (Res.render "login"
              [("user", LUser None); ("botConfig", LBotConfig (BOT_CONFIG env))]).

(** [GET /privacy] *)
Definition get_privacy (req : Req.t) : Async Res.t :=
  ret (Res.render "pt/pp"
         [("botConfig", LBotConfig (BOT_CONFIG env)); ("user", LUser (Req.user req))]).

(** [GET /terms] *)
Definition get_terms (req : Req.t) : Async Res.t :=
  ret (Res.render "pt/tos"
         [("botConfig", LBotConfig (BOT_CONFIG env)); ("user", LUser (Req.user req))]).

(** The 404 handler. *)
Definition not_found (req : Req.t) : Async Res.t :=
  ret {| Res.status := 404;
         Res.body := Res.View "404"
           [("user", LUser (Req.user req)); ("botConfig", LBotConfig (BOT_CONFIG env))] |}.

End Server.

(** ** Sessions, passport and routing

    [express-session] (with its default in-memory store), [passport] and the
    Express router are libraries; what follows is their behaviour as
    [server.js] configures them. *)

Module Session.
Record t : Type := {
  user : option Profile.t;         (* [session.passport.user] *)
  expires : Z                      (* [session.cookie.expires], in ms *)
}.
End Session.

(** [cookie.maxAge] *)
Definition maxAge : Z := 7 * 24 * 60 * 60 * 1000.

(** What [passport.authenticate('discord')] decides for a request: send the
    client to Discord, accept a profile, reject, or fail with an error. *)
Inductive AuthOutcome : Type :=
| ProviderRedirect (authorize_url : string)
| AuthSuccess (profile : Profile.t)
| AuthFail
| AuthError (name : string).

(** The route that the Express router selects for a method and a path. *)
Inductive Route : Type :=
| GET_root
| GET_auth_login (outcome : AuthOutcome)
| GET_auth_callback (outcome : AuthOutcome)
| GET_auth_logout
| GET_dashboard
| GET_dashboard_guild (guildId : string)
| GET_dashboard_aichat (guildId : string)
| GET_dashboard_suggestions (guildId : string)
| GET_api_guilds_channels (guildId : string)
| GET_api_aichat_config (guildId : string)
| POST_api_aichat_save
| POST_api_aichat_reset_memory
| GET_api_analytics
| GET_api_suggestions_config (guildId : string)
| GET_api_suggestions_stats (guildId : string)
| POST_api_suggestions_setup
| POST_api_suggestions_toggle
| GET_privacy
| GET_terms
| Unmatched.

Module Http.
Record request : Type := {
  cookie : option string;          (* session id of a valid [zarkos.sid] cookie *)
  now : Z;                         (* [Date.now()] *)
  route : Route;
  body : Js.value;
  fresh_sid : string               (* the id a regenerated session receives *)
}.
End Http.

Definition route_guildId (r : Route) : string :=
  match r with
  | GET_dashboard_guild g | GET_dashboard_aichat g | GET_dashboard_suggestions g
  | GET_api_guilds_channels g | GET_api_aichat_config g
  | GET_api_suggestions_config g | GET_api_suggestions_stats g => g
  | _ => ""
  end.

(** Express's [req] for a request whose session holds [user]. *)
Definition express_req (user : option Profile.t) (rq : Http.request) : Req.t :=
  {| Req.user := user;
     Req.guildId := route_guildId (Http.route rq);
     Req.body := Http.body rq |}.

(** The routes that [server.js] registers behind [isAuthenticated]. *)
Definition protected (r : Route) : bool :=
  match r with
  | GET_dashboard | GET_dashboard_guild _ | GET_dashboard_aichat _
  | GET_dashboard_suggestions _
  | GET_api_guilds_channels _ | GET_api_aichat_config _ | POST_api_aichat_save
  | POST_api_aichat_reset_memory | GET_api_analytics
  | GET_api_suggestions_config _ | GET_api_suggestions_stats _
  | POST_api_suggestions_setup | POST_api_suggestions_toggle => true
  | _ => false
  end.

Section App.

Variable env : gmap string string.

(** The session middleware: the stored session of the cookie, if there is
    one; the store drops an expired session when it is read. *)
Definition load_session (store : gmap string Session.t) (cookie : option string) (now : Z)
  : gmap string Session.t * option (string * Session.t) :=
  match cookie with
  | None => (store, None)
  | Some sid =>
      match store !! sid with
      | None => (store, None)
      | Some s =>
          if Session.expires s <=? now then (delete sid store, None)
          else (store, Some (sid, s))
      end
  end.

(** [passport.session()]: [req.user] is the stored profile
    ([deserializeUser] is the identity). *)
Definition session_user (loaded : option (string * Session.t)) : option Profile.t :=
  match loaded with
  | Some (_, s) => Session.user s
  | None => None
  end.

(** At the end of a response a loaded session is touched: with
    [rolling: true] its expiry moves to [now + maxAge]. *)
Definition touch (store : gmap string Session.t) (loaded : option (string * Session.t)) (now : Z)
  : gmap string Session.t :=
  match loaded with
  | Some (sid, s) =>
      <[sid := {| Session.user := Session.user s; Session.expires := now + maxAge |}]> store
  | None => store
  end.

(** [req.logout(done)], as passport 0.6 and later define it: passport removes
    the user from the session, saves it and regenerates the session.  The
    old id leaves the store, and the request continues with a new session
    under a new id, which holds no user and is not yet in the store.  Only
    then [done] is called, with the store and the new [req.session]; the
    in-memory store reports no error. *)
Definition req_logout {R} (store : gmap string Session.t) (loaded : option (string * Session.t))
    (fresh : string) (now : Z)
    (done : option Js.Exn -> gmap string Session.t -> string * Session.t -> R) : R :=
  let store := match loaded with Some (sid, _) => delete sid store | None => store end in
  done None store (fresh, {| Session.user := None; Session.expires := now + maxAge |}).

(** The end of a response whose session was regenerated: the new session is
    not the one that was loaded, so [express-session] saves it under its id,
    also with [saveUninitialized: false], and sets its cookie. *)
Definition save_regenerated (store : gmap string Session.t) (session : string * Session.t)
  : gmap string Session.t :=
  <[fst session := snd session]> store.

(** [req.logIn(profile)], called by passport on success: the session is
    regenerated and the new one, holding the profile, is saved. *)
Definition req_login (store : gmap string Session.t) (loaded : option (string * Session.t))
    (fresh : string) (now : Z) (profile : Profile.t) : gmap string Session.t :=
  let store := match loaded with Some (sid, _) => delete sid store | None => store end in
  <[fresh := {| Session.user := Some profile; Session.expires := now + maxAge |}]> store.

(** [req.session.destroy(done)] *)
Definition session_destroy (store : gmap string Session.t) (loaded : option (string * Session.t))
  : gmap string Session.t :=
  match loaded with
  | Some (sid, _) => delete sid store
  | None => store
  end.

(** The outcome of one request: the store afterwards, what was requested
    upstream and logged, and the response ([inl]: the handler's promise was
    rejected and nothing was sent). *)
Definition Outcome : Type := gmap string Session.t * list Event * (Js.Exn + Res.t).

(** [GET /auth/logout]: the redirect ends the response, and the session
    that [req.logout] regenerated is saved. *)
Definition get_auth_logout (store : gmap string Session.t) (loaded : option (string * Session.t))
    (fresh : string) (now : Z) : Outcome :=
  req_logout store loaded fresh now (fun err store' session =>
    (save_regenerated store' session,
     match err with
     | Some e => [ConsoleError [LStr "Logout error:"; LError e]]
     | None => []
     end,
     inr (Res.redirect "/"))).

(** The error handler, the last middleware; the session middleware has set
    [req.session], so the session is destroyed before the redirect. *)
Definition error_handler (err : Js.Exn) (store : gmap string Session.t)
    (loaded : option (string * Session.t)) (now : Z) : Outcome :=
  let log := [ConsoleError [LStr "Dashboard Error:"; LError err]] in
  if String.eqb (Js.name err) "TokenError" || String.eqb (Js.name err) "InternalOAuthError"
  then (session_destroy store loaded, log, inr (Res.redirect "/auth/login"))
  else (touch store loaded now, log, inr (Res.send 500 "Internal Server Error")).

(** [passport.authenticate('discord', options)] followed by [next]. *)
Definition authenticate (outcome : AuthOutcome) (failureRedirect : option string)
    (next : Req.t -> Async Res.t) (store : gmap string Session.t)
    (loaded : option (string * Session.t)) (rq : Http.request) (up : Upstream) : Outcome :=
  match outcome with
  | ProviderRedirect authorize_url =>
      (touch store loaded (Http.now rq), [], inr (Res.redirect authorize_url))
  | AuthSuccess profile =>
      let '(trace, response) := next (express_req (Some profile) rq) up in
      (req_login store loaded (Http.fresh_sid rq) (Http.now rq) profile, trace, response)
  | AuthFail =>
      (touch store loaded (Http.now rq), [],
       inr match failureRedirect with
           | Some path => Res.redirect path
           | None => Res.send 401 "Unauthorized"
           end)
  | AuthError name => error_handler (Js.NamedError name) store loaded (Http.now rq)
  end.

(** The routes in the order [server.js] registers them; the three [/auth]
    routes are served in [handle], and what passes them reaches the 404
    handler. *)
Definition dispatch (r : Route) (req : Req.t) : Async Res.t :=
  match r with
  | GET_root => get_root env req
  | GET_dashboard => isAuthenticated req (get_dashboard env req)
  | GET_dashboard_guild _ => isAuthenticated req (get_dashboard_guild env req)
  | GET_dashboard_aichat _ => isAuthenticated req (get_dashboard_aichat env req)
  | GET_dashboard_suggestions _ => isAuthenticated req (get_dashboard_suggestions env req)
  | GET_api_guilds_channels _ => isAuthenticated req (get_api_guilds_channels env req)
  | GET_api_aichat_config _ => isAuthenticated req (get_api_aichat_config env req)
  | POST_api_aichat_save => isAuthenticated req (post_api_aichat_save env req)
  | POST_api_aichat_reset_memory => isAuthenticated req (post_api_aichat_reset_memory env req)
  | GET_api_analytics => isAuthenticated req (get_api_analytics env req)
  | GET_api_suggestions_config _ => isAuthenticated req (get_api_suggestions_config env req)
  | GET_api_suggestions_stats _ => isAuthenticated req (get_api_suggestions_stats env req)
  | POST_api_suggestions_setup => isAuthenticated req (post_api_suggestions_setup env req)
  | POST_api_suggestions_toggle => isAuthenticated req (post_api_suggestions_toggle env req)
  | GET_privacy => get_privacy env req
  | GET_terms => get_terms env req
  | GET_auth_login _ | GET_auth_callback _ | GET_auth_logout | Unmatched => not_found env req
  end.

(** One request through the middleware stack. *)
Definition handle (store : gmap string Session.t) (up : Upstream) (rq : Http.request)
  : Outcome :=
  let '(store, loaded) := load_session store (Http.cookie rq) (Http.now rq) in
  let req := express_req (session_user loaded) rq in
  match Http.route rq with
  | GET_auth_login outcome =>
      authenticate outcome None (not_found env) store loaded rq up
  | GET_auth_callback outcome =>
      authenticate outcome (Some "/") (fun _ => ret (Res.redirect "/dashboard"))
        store loaded rq up
  | GET_auth_logout => get_auth_logout store loaded (Http.fresh_sid rq) (Http.now rq)
  | r =>
      let '(trace, response) := dispatch r req up in
      (touch store loaded (Http.now rq), trace, response)
  end.

(** A sequence of requests, each with the upstream as it answers then. *)
Fixpoint serve (store : gmap string Session.t) (rqs : list (Upstream * Http.request))
  : gmap string Session.t * list (list Event * (Js.Exn + Res.t)) :=
  match rqs with
  | [] => (store, [])
  | (up, rq) :: rest =>
      let '(store', trace, response) := handle store up rq in
      let '(final, outcomes) := serve store' rest in
      (final, (trace, response) :: outcomes)
  end.

(** The session cookie that the client holds after the response: a
    regenerated session ([req.logIn], [req.logout]) comes with a
    [Set-Cookie] for its new id; otherwise the client keeps what it sent. *)
Definition cookie_after (rq : Http.request) : option string :=
  match Http.route rq with
  | GET_auth_login (AuthSuccess _) | GET_auth_callback (AuthSuccess _) | GET_auth_logout =>
      Some (Http.fresh_sid rq)
  | _ => Http.cookie rq
  end.

End App.

(** ** What Express sends

    [res.json(v)] writes [JSON.stringify(v)], and the client reads the body
    back with [JSON.parse].  [json_wire] is the value that arrives: a
    non-finite Number is written as [null]; [undefined] is written as
    [null] inside an array, and a field that holds it is left out. *)
Fixpoint json_wire (v : Js.value) : Js.value :=
  match v with
  | Js.Prim (Js.Num (Js.Finite _ _)) => v
  | Js.Prim (Js.Num _) => Js.Prim Js.Null
  | Js.Prim _ => v
  | Js.Arr items =>
      Js.Arr (List.map (fun item =>
                          match item with
                          | Js.Prim Js.Undefined => Js.Prim Js.Null
                          | _ => json_wire item
                          end) items)
  | Js.Obj fields =>
      Js.Obj (List.flat_map (fun '(key, x) =>
                               match x with
                               | Js.Prim Js.Undefined => []
                               | _ => [(key, json_wire x)]
                               end) fields)
  end.

(** The answer to a conditional request whose validators still match. *)
Definition not_modified : Res.t := {| Res.status := 304; Res.body := Res.Text "" |}.

(** What [res.send] puts on the wire for the response that a handler set:
    for a [GET] whose cache validators match the response ([fresh]) a 2xx
    becomes 304 without body; otherwise a JSON body is the serialisation of
    its value ([undefined] has none: the body is empty). *)
Definition delivered (get fresh : bool) (res : Res.t) : Res.t :=
  if get && fresh && (200 <=? Res.status res) && (Res.status res <? 300)
  then not_modified
  else
    match Res.body res with
    | Res.Json (Js.Prim Js.Undefined) =>
        {| Res.status := Res.status res; Res.body := Res.Text "" |}
    | Res.Json v => {| Res.status := Res.status res; Res.body := Res.Json (json_wire v) |}
    | _ => res
    end.

(** * Vocabulary of the statements *)

(** ** Outcomes *)

(** The identity that a request's session resolves to. *)
Definition identity (store : gmap string Session.t) (rq : Http.request) : option Profile.t :=
  session_user (snd (load_session store (Http.cookie rq) (Http.now rq))).

Definition store_of (o : Outcome) : gmap string Session.t := fst (fst o).
Definition trace_of (o : Outcome) : list Event := snd (fst o).
Definition response_of (o : Outcome) : Js.Exn + Res.t := snd o.

(** The upstream calls of a trace, in order. *)
Fixpoint http_requests (trace : list Event) : list AxiosConfig :=
  match trace with
  | [] => []
  | HttpRequest config :: rest => config :: http_requests rest
  | ConsoleError _ :: rest => http_requests rest
  end.

(** A value handed to a view, by name. *)
Fixpoint local (key : string) (locals : list (string * Local)) : option Local :=
  match locals with
  | [] => None
  | (k, v) :: rest => if String.eqb k key then Some v else local key rest
  end.

(** ** The selector *)

(** The [guilds] of a rendered selector page. *)
Definition selector_list (res : Res.t) : option (list GuildEntry.t) :=
  match Res.body res with
  | Res.View "selector" locals =>
      match local "guilds" locals with
      | Some (LGuilds entries) => Some entries
      | _ => None
      end
  | _ => None
  end.

(** The permission bitmask of a membership: the integer that its
    [permissions] denote, when they denote one. *)
Definition bitmask (g : Guild.t) : option Z :=
  match Js.BigInt (Guild.permissions g) with
  | inr z => Some z
  | inl _ => None
  end.

(** Bit [0x20] of a bitmask, as the spec words it: the bit of weight [2^5]. *)
Definition bit_0x20_set (z : Z) : bool := Z.testbit z 5.

(** The memberships whose bitmask has bit [0x20] set. *)
Definition with_manage_bit (gs : list Guild.t) : list Guild.t :=
  List.filter (fun g => match bitmask g with
                        | Some z => bit_0x20_set z
                        | None => false
                        end) gs.

(** The integer that a [permissions] value denotes, read off the value
    itself and not through [BigInt]: a string of decimal digits denotes the
    natural number with these digits, a [0x] literal the natural number with
    these hexadecimal digits (both as the standard library's numerals
    evaluate them, without any bound), and an integral Number [m * 2^e] its
    mathematical value. *)
Inductive denotes : Js.primitive -> Z -> Prop :=
| denotes_decimal (d : Decimal.uint) :
    d <> Decimal.Nil ->
    denotes (Js.Str (DecimalString.NilEmpty.string_of_uint d)) (Z.of_N (N.of_uint d))
| denotes_hexadecimal (d : Hexadecimal.uint) :
    d <> Hexadecimal.Nil ->
    denotes (Js.Str ("0x" ++ HexadecimalString.NilEmpty.string_of_uint d))
            (Z.of_N (N.of_hex_uint d))
| denotes_number (m e : Z) :
    0 <= e -> denotes (Js.Num (Js.Finite m e)) (m * 2 ^ e)
| denotes_dyadic (z e : Z) :
    e < 0 -> denotes (Js.Num (Js.Finite (z * 2 ^ (- e)) e)) z.

(** A string without white space, which [trim] leaves as it is. *)
Definition no_white_space (s : string) : Prop :=
  Forall (fun c => Js.is_StrWhiteSpaceChar c = false) (list_ascii_of_string s).

(** ** Upstream calls and console lines *)

(** The request that [callBotAPI(endpoint, method, data)] hands to axios. *)
Definition bot_request (env : gmap string string) (endpoint method : string)
    (data : option Js.value) : AxiosConfig :=
  {| method := method;
     config_url := url (BOT_API env) ++ endpoint;
     headers := [("Authorization", "Bearer " ++ key (BOT_API env));
                 ("Content-Type", "application/json")];
     data := data |}.

(** An answer to the bot-guilds call that [GET /dashboard] can use: the call
    fails, or the [guilds] it names are absent, an array or a string. *)
Definition guilds_listable (answer : string + Js.value) : bool :=
  match answer with
  | inl _ => true
  | inr d =>
      match Js.get_guilds d with
      | inl _ => true
      | inr listed =>
          negb (Js.truthy listed) ||
          match listed with
          | Js.Arr _ | Js.Prim (Js.Str _) => true
          | _ => false
          end
      end
  end.

(** The [data] that [callBotAPI] puts in the request. *)
Definition sent_data (data : Js.value) : option Js.value :=
  let data := match data with Js.Prim Js.Undefined => Js.Prim Js.Null | d => d end in
  if Js.truthy data then Some data else None.

(** The line that [callBotAPI] logs. *)
Definition api_error_line (endpoint : string) (e : Js.Exn) : Event :=
  ConsoleError [LStr ("API Error [" ++ endpoint ++ "]:"); LMessage e].

(** The call for the bot's guilds, and the line logged when it fails. *)
Definition bot_guilds_request (env : gmap string string) : AxiosConfig :=
  bot_request env "/api/bot/guilds" "GET" None.

Definition bot_guilds_failure_line (e : Js.Exn) : Event :=
  ConsoleError [LStr "Failed to fetch bot guilds:"; LMessage e].

(** The selector page for a list of entries. *)
Definition selector_page (env : gmap string string) (user : option Profile.t)
    (guilds : list GuildEntry.t) : Res.t :=
  Res.render "selector"
    [("user", LUser user);
     ("guilds", LGuilds guilds);
     ("botConfig", LBotConfig (BOT_CONFIG env));
     ("page", LText (Some "selector"))].

(** The line that the outer [catch] of [GET /dashboard] logs. *)
Definition dashboard_error_line (e : Js.Exn) : Event :=
  ConsoleError [LStr "Dashboard error:"; LError e].

(** The values with an [includes] method. *)
Definition has_includes (v : Js.value) : bool :=
  match v with
  | Js.Arr _ | Js.Prim (Js.Str _) => true
  | _ => false
  end.

(** ** Routes *)

(** The three routes under [/auth], which act on the session. *)
Definition auth_route (r : Route) : bool :=
  match r with
  | GET_auth_login _ | GET_auth_callback _ | GET_auth_logout => true
  | _ => false
  end.

(** The three guild-scoped pages. *)
Inductive GuildPage : Type := Overview | AiChat | Suggestions.

Definition page_route (p : GuildPage) (guildId : string) : Route :=
  match p with
  | Overview => GET_dashboard_guild guildId
  | AiChat => GET_dashboard_aichat guildId
  | Suggestions => GET_dashboard_suggestions guildId
  end.

Definition page_handler (env : gmap string string) (p : GuildPage) : Req.t -> Async Res.t :=
  match p with
  | Overview => get_dashboard_guild env
  | AiChat => get_dashboard_aichat env
  | Suggestions => get_dashboard_suggestions env
  end.

Definition page_view (p : GuildPage) : string :=
  match p with
  | Overview => "dashboard"
  | AiChat => "aichat"
  | Suggestions => "suggestions"
  end.

Definition page_error_line (p : GuildPage) (e : Js.Exn) : Event :=
  ConsoleError
    [LStr match p with
          | Overview => "Guild dashboard error:"
          | AiChat => "AI Chat page error:"
          | Suggestions => "Suggestions page error:"
          end;
     LError e].

Definition page_error_text (p : GuildPage) : string :=
  match p with
  | Overview => "Error loading guild dashboard"
  | AiChat => "Error loading AI Chat page"
  | Suggestions => "Error loading Suggestions page"
  end.

Definition guild_info_request (env : gmap string string) (guildId : string) : AxiosConfig :=
  bot_request env ("/api/guilds/" ++ guildId ++ "/info") "GET" None.

(** The 403 of a guild-scoped page. *)
Definition access_denied : Res.t := Res.send 403 "Access denied".

(** The view and the bot's guild data of a rendered page. *)
Definition rendered_guild (res : Res.t) : option (string * Js.value) :=
  match Res.body res with
  | Res.View view locals =>
      match local "guild" locals with
      | Some (LGuild d) => Some (view, d)
      | _ => None
      end
  | _ => None
  end.

(** What a guild-scoped page renders for the bot's guild data [d]. *)
Definition page_rendered (env : gmap string string) (p : GuildPage)
    (user : option Profile.t) (d : Js.value) : Res.t :=
  Res.render (page_view p)
    ([("user", LUser user);
      ("guild", LGuild d);
      ("botConfig", LBotConfig (BOT_CONFIG env))] ++
     match p with
     | Overview => [("page", LText (Some "overview"))]
     | AiChat => [("page", LText (Some "aichat"));
                  ("ownerID", LText (env !! "BOT_OWNER_ID"))]
     | Suggestions => [("page", LText (Some "suggestions"))]
     end)%list.

(** The nine JSON proxy routes. *)
Definition api_route (r : Route) : bool :=
  match r with
  | GET_api_guilds_channels _ | GET_api_aichat_config _ | POST_api_aichat_save
  | POST_api_aichat_reset_memory | GET_api_analytics
  | GET_api_suggestions_config _ | GET_api_suggestions_stats _
  | POST_api_suggestions_setup | POST_api_suggestions_toggle => true
  | _ => false
  end.

(** The upstream endpoint of a proxy route. *)
Definition api_endpoint (r : Route) : string :=
  match r with
  | GET_api_guilds_channels g => "/api/guilds/" ++ g ++ "/channels"
  | GET_api_aichat_config g => "/api/aichat/config/" ++ g
  | POST_api_aichat_save => "/api/aichat/save"
  | POST_api_aichat_reset_memory => "/api/aichat/reset-memory"
  | GET_api_analytics => "/api/analytics"
  | GET_api_suggestions_config g => "/api/suggestions/config/" ++ g
  | GET_api_suggestions_stats g => "/api/suggestions/stats/" ++ g
  | POST_api_suggestions_setup => "/api/suggestions/setup"
  | POST_api_suggestions_toggle => "/api/suggestions/toggle"
  | _ => ""
  end.

Definition api_posts (r : Route) : bool :=
  match r with
  | POST_api_aichat_save | POST_api_aichat_reset_memory
  | POST_api_suggestions_setup | POST_api_suggestions_toggle => true
  | _ => false
  end.

(** The one request a proxy route sends upstream. *)
Definition api_request (env : gmap string string) (r : Route) (body : Js.value) : AxiosConfig :=
  bot_request env (api_endpoint r)
    (if api_posts r then "POST" else "GET")
    (if api_posts r then sent_data body else None).

(** The method of a registered route: the four [POST] routes apart, the
    routes of [server.js] are [GET] routes. *)
Definition is_get (r : Route) : bool := negb (api_posts r).

(** A value that its JSON text gives back as it is: its numbers are finite
    and it holds no [undefined]. *)
Fixpoint json_exact (v : Js.value) : bool :=
  match v with
  | Js.Prim Js.Undefined => false
  | Js.Prim (Js.Num (Js.Finite _ _)) => true
  | Js.Prim (Js.Num _) => false
  | Js.Prim _ => true
  | Js.Arr items => forallb json_exact items
  | Js.Obj fields => forallb (fun '(_, x) => json_exact x) fields
  end.

(** The fixed message of a proxy route's failure body. *)
Definition api_failure_message (r : Route) : string :=
  match r with
  | GET_api_guilds_channels _ => "Failed to fetch channels"
  | GET_api_aichat_config _ => "Failed to fetch config"
  | POST_api_aichat_save => "Failed to save config"
  | POST_api_aichat_reset_memory => "Failed to reset memory"
  | GET_api_analytics => "Failed to fetch analytics"
  | GET_api_suggestions_config _ => "Failed to fetch config"
  | GET_api_suggestions_stats _ => "Failed to fetch stats"
  | POST_api_suggestions_setup => "Failed to setup suggestions"
  | POST_api_suggestions_toggle => "Failed to toggle suggestions"
  | _ => ""
  end.

(** ** Sessions *)

(** A request without identity: no valid cookie, no stored session for it, an
    expired session, or a session that holds no user. *)
Definition anonymous (store : gmap string Session.t) (rq : Http.request) : Prop :=
  match Http.cookie rq with
  | None => True
  | Some sid =>
      match store !! sid with
      | None => True
      | Some s => Session.expires s <= Http.now rq \/ Session.user s = None
      end
  end.

Definition is_redirect (res : Res.t) : bool :=
  match Res.body res with
  | Res.Location _ => true
  | _ => false
  end.

(** A request that stores a new session under [sid]. *)
Definition logs_in_as (sid : string) (rq : Http.request) : bool :=
  match Http.route rq with
  | GET_auth_login (AuthSuccess _) | GET_auth_callback (AuthSuccess _) =>
      String.eqb (Http.fresh_sid rq) sid
  | _ => false
  end.

(** The store holds no session for the cookie. *)
Definition no_session (store : gmap string Session.t) (cookie : option string) : Prop :=
  match cookie with
  | Some sid => store !! sid = None
  | None => True
  end.

(** The store holds no user under the session id: no session, or a session
    without user. *)
Definition no_user (store : gmap string Session.t) (sid : string) : Prop :=
  forall s, store !! sid = Some s -> Session.user s = None.

(** ** The scenario of the spec

    A user who is a member of three guilds, with the manage-server bit in
    [A] and [D] only, is logged in under the session [s1]; the bot is in
    [A]. *)

Module Scenario.

Import Js.

Definition guildA : Guild.t :=
  {| Guild.id := "A"; Guild.name := "Alpha"; Guild.icon := Some "a1b2";
     Guild.permissions := Str "0x20" |}.

Definition guildB : Guild.t :=
  {| Guild.id := "B"; Guild.name := "Beta"; Guild.icon := None;
     Guild.permissions := Str "0x0" |}.

Definition guildD : Guild.t :=
  {| Guild.id := "D"; Guild.name := "Delta"; Guild.icon := None;
     Guild.permissions := Str "0x00000000000000000020000000000028" |}.

Definition alice : Profile.t :=
  {| Profile.id := "80351110224678912"; Profile.username := "alice";
     Profile.avatar := None; Profile.guilds := Some [guildA; guildB; guildD] |}.

Definition store : gmap string Session.t :=
  {["s1" := {| Session.user := Some alice; Session.expires := 604800000 |}]}.

Definition beta_info : value :=
  Obj [("id", Prim (Str "B")); ("name", Prim (Str "Beta"))].

Definition channels : value :=
  Arr [Obj [("id", Prim (Str "1")); ("name", Prim (Str "general"))]].

(** A bot API that is up. *)
Definition bot : Upstream := fun config =>
  let path := config_url config in
  if String.eqb path "http://fi6.bot-hosting.net:22280/api/bot/guilds"
  then inr (Obj [("guilds", Arr [Prim (Str "A")])])
  else if String.eqb path "http://fi6.bot-hosting.net:22280/api/guilds/B/info"
  then inr beta_info
  else if String.eqb path "http://fi6.bot-hosting.net:22280/api/guilds/Z/channels"
  then inr channels
  else inl "Request failed with status code 404".

(** A bot API that is down. *)
Definition down : Upstream := fun _ => inl "connect ECONNREFUSED".

(** A bot API whose body is the JSON number [1e400], which [JSON.parse]
    reads as [Infinity]. *)
Definition overflow : Upstream := fun _ => inr (Prim (Num (Infinity false))).

Definition request (cookie : option string) (now : Z) (route : Route) : Http.request :=
  {| Http.cookie := cookie; Http.now := now; Http.route := route;
     Http.body := Obj []; Http.fresh_sid := "s2" |}.

(** The digits of a hexadecimal numeral. *)
Definition hex_digits (numeral : string) : Hexadecimal.uint :=
  match HexadecimalString.NilEmpty.uint_of_string numeral with
  | Some d => d
  | None => Hexadecimal.Nil
  end.

Definition entries (botInA : bool) : list GuildEntry.t :=
  [{| GuildEntry.id := "A"; GuildEntry.name := "Alpha";
      GuildEntry.icon := Some "https://cdn.discordapp.com/icons/A/a1b2.png";
      GuildEntry.botInGuild := botInA |};
   {| GuildEntry.id := "D"; GuildEntry.name := "Delta";
      GuildEntry.icon := None; GuildEntry.botInGuild := false |}].

End Scenario.

(** * Vocabulary of the further properties *)

(** The decimal numeral of a natural number, as Discord writes a bitmask. *)
Definition decimal (n : N) : string := NilZero.string_of_uint (N.to_uint n).

(** The statuses that the handlers of [server.js] set. *)
Definition known_statuses : list Z := [200; 302; 401; 403; 404; 500].

(** A request as [callBotAPI] builds it: the configured base URL and
    credential, [GET] without data or [POST]. *)
Definition bot_call (env : gmap string string) (config : AxiosConfig) : Prop :=
  exists endpoint method data,
    config = bot_request env endpoint method data /\
    (method = "GET" /\ data = None \/ method = "POST").

(** Two upstreams that answer alike, up to the message of a failure. *)
Definition same_answers (up up' : Upstream) : Prop :=
  forall config,
    match up config, up' config with
    | inr d, inr d' => d = d'
    | inl _, inl _ => True
    | _, _ => False
    end.

(** The login page of [GET /]. *)
Definition login_page (env : gmap string string) : Res.t :=
  Res.render "login" [("user", LUser None); ("botConfig", LBotConfig (BOT_CONFIG env))].

(** The session that [req.logout] leaves in the store under the new id. *)
Definition logged_out_session (rq : Http.request) : Session.t :=
  {| Session.user := None; Session.expires := Http.now rq + maxAge |}.

(** A request that stores a regenerated session under [sid]: a successful
    authentication or a logout whose new session id is [sid]. *)
Definition regenerates_as (sid : string) (rq : Http.request) : bool :=
  match Http.route rq with
  | GET_auth_login (AuthSuccess _) | GET_auth_callback (AuthSuccess _) | GET_auth_logout =>
      String.eqb (Http.fresh_sid rq) sid
  | _ => false
  end.

(** A request on which passport accepts [user] and stores the profile under
    [sid]. *)
Definition authenticates (sid : string) (user : Profile.t) (rq : Http.request) : Prop :=
  (Http.route rq = GET_auth_login (AuthSuccess user) \/
   Http.route rq = GET_auth_callback (AuthSuccess user)) /\
  Http.fresh_sid rq = sid.

(** The store holds [user] under [sid]. *)
Definition holds_user (store : gmap string Session.t) (sid : string) (user : Profile.t)
  : Prop :=
  exists s, store !! sid = Some s /\ Session.user s = Some user.

(** What every view of [server.js] is given: [botConfig], and [user]. *)
Definition view_has_common_locals (env : gmap string string) (res : Res.t) : Prop :=
  match Res.body res with
  | Res.View _ locals =>
      local "botConfig" locals = Some (LBotConfig (BOT_CONFIG env)) /\
      exists u, local "user" locals = Some (LUser u)
  | _ => True
  end.

(** ** Further cases

    A profile that came without guilds and one with a membership that lacks
    its [permissions], each under a session of its own; a bot API whose
    body is [null], and one that fails with another message. *)

Module Cases.

Import Js.

Definition guildE : Guild.t :=
  {| Guild.id := "E"; Guild.name := "Echo"; Guild.icon := None;
     Guild.permissions := Undefined |}.

Definition guildP : Guild.t :=
  {| Guild.id := "P"; Guild.name := "Papa"; Guild.icon := None;
     Guild.permissions := Str "9007199254741032" |}.

Definition newcomer : Profile.t :=
  {| Profile.id := "2"; Profile.username := "newcomer";
     Profile.avatar := None; Profile.guilds := None |}.

Definition bob : Profile.t :=
  {| Profile.id := "3"; Profile.username := "bob";
     Profile.avatar := None; Profile.guilds := Some [Scenario.guildA; guildE] |}.

Definition store : gmap string Session.t :=
  <["s3" := {| Session.user := Some newcomer; Session.expires := 604800000 |}]>
    {["s4" := {| Session.user := Some bob; Session.expires := 604800000 |}]}.

Definition null_body : Upstream := fun _ => inr (Prim Null).

(** A request whose regenerated session would receive the id [fresh]. *)
Definition request (fresh : string) (cookie : option string) (now : Z) (route : Route)
  : Http.request :=
  {| Http.cookie := cookie; Http.now := now; Http.route := route;
     Http.body := Obj []; Http.fresh_sid := fresh |}.

Definition hang_up : Upstream := fun _ => inl "socket hang up".

End Cases.

(** * Properties of the server *)

(** ** What [BigInt] reads *)

Lemma digits_value_acc (d : Decimal.uint) (acc : positive) :
  Js.digits_value 10 (Z.pos acc) (NilEmpty.string_of_uint d) =
    Some (Z.pos (Pos.of_uint_acc d acc)).
Proof.
  revert acc. induction d; intros acc;
    cbn [NilEmpty.string_of_uint Js.digits_value Pos.of_uint_acc]; [reflexivity | ..];
    match goal with
    | |- context [Js.digit_value 10 ?c] =>
        let v := eval vm_compute in (Js.digit_value 10 c) in
        change (Js.digit_value 10 c) with v
    end; rewrite <- IHd; f_equal; lia.
Qed.

Lemma digits_value_zero (d : Decimal.uint) :
  Js.digits_value 10 0 (NilEmpty.string_of_uint d) = Some (Z.of_N (Pos.of_uint d)).
Proof.
  induction d; cbn [NilEmpty.string_of_uint Js.digits_value Pos.of_uint];
    [reflexivity | exact IHd | ..];
    match goal with
    | |- context [Js.digit_value 10 ?c] =>
        let v := eval vm_compute in (Js.digit_value 10 c) in
        change (Js.digit_value 10 c) with v
    end; cbn [Z.mul Z.add Z.of_N]; apply digits_value_acc.
Qed.

Lemma string_rev_involutive (s : string) : Js.string_rev (Js.string_rev s) = s.
Proof.
  unfold Js.string_rev.
  now rewrite list_ascii_of_string_of_list_ascii, rev_involutive,
    string_of_list_ascii_of_string.
Qed.

Lemma trim_start_id (s : string) : no_white_space s -> Js.trim_start s = s.
Proof.
  destruct s as [| c rest]; [reflexivity |]. unfold no_white_space. cbn.
  intros H. inversion H as [| ? ? Hc _]; subst. now rewrite Hc.
Qed.

Lemma trim_id (s : string) : no_white_space s -> Js.trim s = s.
Proof.
  intros H. unfold Js.trim. rewrite (trim_start_id s H).
  rewrite trim_start_id; [apply string_rev_involutive |].
  unfold no_white_space, Js.string_rev in *.
  rewrite list_ascii_of_string_of_list_ascii. rewrite List.Forall_forall in *.
  intros c Hc. apply H. now apply in_rev.
Qed.

Lemma numeral_no_white_space (d : Decimal.uint) :
  no_white_space (NilEmpty.string_of_uint d).
Proof.
  unfold no_white_space. induction d; cbn; constructor; auto.
Qed.

Lemma StrIntegerLiteral_numeral (d : Decimal.uint) :
  d <> Decimal.Nil ->
  Js.StrIntegerLiteral (NilEmpty.string_of_uint d) = Some (Z.of_N (Pos.of_uint d)).
Proof.
  intros Hd. rewrite <- digits_value_zero.
  destruct d as [| d | d | d | d | d | d | d | d | d | d]; try reflexivity; [congruence |].
  destruct d; reflexivity.
Qed.

Lemma StringToBigInt_numeral (d : Decimal.uint) :
  Js.StringToBigInt (NilZero.string_of_uint d) = Some (Z.of_N (N.of_uint d)).
Proof.
  unfold Js.StringToBigInt.
  assert (Hcases : d = Decimal.Nil \/ d <> Decimal.Nil)
    by (destruct d; (now left) || (now right)).
  destruct Hcases as [-> | Hd]; [reflexivity |].
  assert (Hs : NilZero.string_of_uint d = NilEmpty.string_of_uint d) by now destruct d.
  rewrite Hs, trim_id by apply numeral_no_white_space.
  unfold N.of_uint. rewrite <- (StrIntegerLiteral_numeral d Hd).
  destruct d; try reflexivity. congruence.
Qed.

Lemma hex_digits_value_acc (d : Hexadecimal.uint) (acc : positive) :
  Js.digits_value 16 (Z.pos acc) (HexadecimalString.NilEmpty.string_of_uint d) =
    Some (Z.pos (Pos.of_hex_uint_acc d acc)).
Proof.
  revert acc. induction d; intros acc;
    cbn [HexadecimalString.NilEmpty.string_of_uint Js.digits_value Pos.of_hex_uint_acc];
    [reflexivity | ..];
    match goal with
    | |- context [Js.digit_value 16 ?c] =>
        let v := eval vm_compute in (Js.digit_value 16 c) in
        change (Js.digit_value 16 c) with v
    end; rewrite <- IHd; f_equal; lia.
Qed.

Lemma hex_digits_value_zero (d : Hexadecimal.uint) :
  Js.digits_value 16 0 (HexadecimalString.NilEmpty.string_of_uint d) =
    Some (Z.of_N (Pos.of_hex_uint d)).
Proof.
  induction d;
    cbn [HexadecimalString.NilEmpty.string_of_uint Js.digits_value Pos.of_hex_uint];
    [reflexivity | exact IHd | ..];
    match goal with
    | |- context [Js.digit_value 16 ?c] =>
        let v := eval vm_compute in (Js.digit_value 16 c) in
        change (Js.digit_value 16 c) with v
    end; cbn [Z.mul Z.add Z.of_N]; apply hex_digits_value_acc.
Qed.

Lemma hex_numeral_no_white_space (d : Hexadecimal.uint) :
  no_white_space ("0x" ++ HexadecimalString.NilEmpty.string_of_uint d).
Proof.
  unfold no_white_space. cbn. do 2 (constructor; [reflexivity |]).
  induction d; cbn; constructor; auto.
Qed.

Lemma StringToBigInt_hex_numeral (d : Hexadecimal.uint) :
  d <> Hexadecimal.Nil ->
  Js.StringToBigInt ("0x" ++ HexadecimalString.NilEmpty.string_of_uint d) =
    Some (Z.of_N (N.of_hex_uint d)).
Proof.
  intros Hd. unfold Js.StringToBigInt. rewrite trim_id by apply hex_numeral_no_white_space.
  cbn [append Js.StrIntegerLiteral]. unfold N.of_hex_uint.
  rewrite <- hex_digits_value_zero. unfold Js.Digits.
  destruct d; try reflexivity. congruence.
Qed.

Lemma StringToBigInt_decimal_numeral (d : Decimal.uint) :
  d <> Decimal.Nil ->
  Js.StringToBigInt (DecimalString.NilEmpty.string_of_uint d) = Some (Z.of_N (N.of_uint d)).
Proof.
  intros Hd. rewrite <- StringToBigInt_numeral. f_equal. destruct d; try reflexivity. congruence.
Qed.

(** [BigInt] converts a value to the integer it denotes. *)
Lemma denotes_BigInt (p : Js.primitive) (z : Z) : denotes p z -> Js.BigInt p = inr z.
Proof.
  intros [d Hd | d Hd | m e He | z' e He]; cbn [Js.BigInt].
  - now rewrite StringToBigInt_decimal_numeral.
  - now rewrite StringToBigInt_hex_numeral.
  - unfold Js.number_integer. destruct (Z.leb_spec 0 e); [reflexivity | lia].
  - unfold Js.number_integer. destruct (Z.leb_spec 0 e); [lia |].
    assert (Hpow : 2 ^ (- e) <> 0) by (apply Z.pow_nonzero; lia).
    rewrite Z.mod_mul by assumption. cbn [Z.eqb]. now rewrite Z.div_mul.
Qed.

Lemma denotes_bitmask (g : Guild.t) (z : Z) :
  denotes (Guild.permissions g) z -> bitmask g = Some z.
Proof. intros H. unfold bitmask. now rewrite (denotes_BigInt _ z H). Qed.

(** ** Arithmetic of the permission test *)

Lemma land_0x20 (z : Z) : Z.land z 0x20 = if Z.testbit z 5 then 0x20 else 0.
Proof.
  apply Z.bits_inj'. intros n Hn.
  rewrite Z.land_spec. change 0x20 with (2 ^ 5).
  rewrite Z.pow2_bits_eqb by lia.
  destruct (Z.eqb_spec 5 n) as [<- | Hne].
  - rewrite andb_true_r. destruct (Z.testbit z 5) eqn:E; [| now rewrite Z.bits_0].
    now rewrite Z.pow2_bits_eqb, Z.eqb_refl by lia.
  - rewrite andb_false_r. destruct (Z.testbit z 5); [| now rewrite Z.bits_0].
    rewrite Z.pow2_bits_eqb by lia. symmetry. now apply Z.eqb_neq.
Qed.

Lemma manage_test_is_bit (z : Z) : (Z.land z 0x20 =? 0x20) = bit_0x20_set z.
Proof.
  unfold bit_0x20_set. rewrite land_0x20. now destruct (Z.testbit z 5).
Qed.

Lemma has_manage_server_bitmask (g : Guild.t) (z : Z) :
  bitmask g = Some z -> has_manage_server g = inr (bit_0x20_set z).
Proof.
  unfold bitmask, has_manage_server. destruct (Js.BigInt _) as [e | p]; [discriminate |].
  intros [= ->]. simpl. now rewrite manage_test_is_bit.
Qed.

Lemma has_manage_server_inv (g : Guild.t) (b : bool) :
  has_manage_server g = inr b -> exists z, bitmask g = Some z /\ bit_0x20_set z = b.
Proof.
  unfold bitmask, has_manage_server. destruct (Js.BigInt _) as [e | p]; [discriminate |].
  simpl. intros [= <-]. exists p. now rewrite manage_test_is_bit.
Qed.

(** ** The array callbacks *)

Lemma js_filter_inv {A} (p : A -> Js.Exn + bool) (xs ys : list A) :
  js_filter p xs = inr ys ->
  Forall (fun x => exists b, p x = inr b) xs /\
  ys = List.filter (fun x => match p x with inr b => b | inl _ => false end) xs.
Proof.
  revert ys. induction xs as [| x xs IH]; simpl; intros ys H.
  - injection H as <-. split; [constructor | reflexivity].
  - destruct (p x) as [e | b] eqn:Hp; [discriminate |]. simpl in H.
    destruct (js_filter p xs) as [e | kept]; [discriminate |]. simpl in H.
    destruct (IH kept eq_refl) as [Hall ->]. injection H as <-.
    split; [constructor; eauto |]. now destruct b.
Qed.

Lemma js_filter_total {A} (p : A -> Js.Exn + bool) (xs : list A) :
  Forall (fun x => exists b, p x = inr b) xs ->
  js_filter p xs =
    inr (List.filter (fun x => match p x with inr b => b | inl _ => false end) xs).
Proof.
  induction 1 as [| x xs [b Hb] _ IH]; simpl; [reflexivity |].
  rewrite Hb, IH. simpl. now destruct b.
Qed.

Lemma js_map_inv {A B} (f : A -> Js.Exn + B) (xs : list A) (ys : list B) :
  js_map f xs = inr ys -> Forall2 (fun x y => f x = inr y) xs ys.
Proof.
  revert ys. induction xs as [| x xs IH]; simpl; intros ys H.
  - injection H as <-. constructor.
  - destruct (f x) as [e | y] eqn:Hf; [discriminate |]. simpl in H.
    destruct (js_map f xs) as [e | rest]; [discriminate |]. simpl in H.
    injection H as <-. constructor; auto.
Qed.

Lemma js_find_none {A} (p : A -> bool) (xs : list A) :
  js_find p xs = None <-> Forall (fun x => p x = false) xs.
Proof.
  induction xs as [| x xs IH]; simpl.
  - split; [constructor | reflexivity].
  - destruct (p x) eqn:Hp.
    + split; [discriminate |]. intros H. inversion H; congruence.
    + rewrite IH. split; [now constructor | intros H; now inversion H].
Qed.

(** ** What each handler does *)

(** [callBotAPI] performs one request; a failure is logged and thrown on. *)
Lemma callBotAPI_run env endpoint method data up :
  let config := bot_request env endpoint (default "GET" method) (sent_data data) in
  callBotAPI env endpoint method data up =
    match up config with
    | inr d => ([HttpRequest config], inr d)
    | inl message =>
        ([HttpRequest config; api_error_line endpoint (Js.AxiosError message)],
         inl (Js.AxiosError message))
    end.
Proof.
  unfold callBotAPI, try_catch, bind, axios, ret, throw, console_error, bot_request,
    sent_data, api_error_line. simpl.
  destruct (up _) as [message | d]; reflexivity.
Qed.

Lemma fetch_botGuilds_run env up :
  fetch_botGuilds env up =
    match up (bot_guilds_request env) with
    | inl message =>
        ([HttpRequest (bot_guilds_request env);
          api_error_line "/api/bot/guilds" (Js.AxiosError message);
          bot_guilds_failure_line (Js.AxiosError message)],
         inr (Js.Arr []))
    | inr d =>
        match Js.get_guilds d with
        | inr listed =>
            ([HttpRequest (bot_guilds_request env)], inr (Js.or_else listed (Js.Arr [])))
        | inl e =>
            ([HttpRequest (bot_guilds_request env); bot_guilds_failure_line e],
             inr (Js.Arr []))
        end
    end.
Proof.
  assert (Hrequest : bot_guilds_request env =
            bot_request env "/api/bot/guilds" (default "GET" None)
              (sent_data (Js.Prim Js.Undefined))) by reflexivity.
  unfold fetch_botGuilds, try_catch, bind at 1.
  rewrite callBotAPI_run, Hrequest. cbv zeta.
  destruct (up _) as [message | d]; [reflexivity |].
  unfold bind, lift, ret. destruct (Js.get_guilds d) as [e | listed]; reflexivity.
Qed.

(** The bot's guilds are always obtained: the inner [try] absorbs every
    failure. *)
Lemma fetch_botGuilds_returns env up :
  exists trace botGuilds,
    fetch_botGuilds env up = (trace, inr botGuilds) /\
    http_requests trace = [bot_guilds_request env].
Proof.
  rewrite fetch_botGuilds_run.
  destruct (up (bot_guilds_request env)) as [message | d]; [eauto |].
  destruct (Js.get_guilds d); eauto.
Qed.

(** [GET /dashboard], step by step. *)
Lemma get_dashboard_run env req user up :
  Req.user req = Some user ->
  get_dashboard env req up =
    match managedGuilds (userGuilds user) with
    | inl e => ([dashboard_error_line e], inr (Res.send 500 "Error loading dashboard"))
    | inr managed =>
        let '(trace, fetched) := fetch_botGuilds env up in
        match fetched with
        | inl e => ((trace ++ [dashboard_error_line e])%list,
                    inr (Res.send 500 "Error loading dashboard"))
        | inr botGuilds =>
            match js_map (guild_entry botGuilds) managed with
            | inr guilds => (trace, inr (selector_page env (Some user) guilds))
            | inl e => ((trace ++ [dashboard_error_line e])%list,
                        inr (Res.send 500 "Error loading dashboard"))
            end
        end
    end.
Proof.
  intros Huser.
  unfold get_dashboard, try_catch, bind, lift, req_user, ret, console_error,
    selector_page, dashboard_error_line.
  rewrite Huser.
  destruct (managedGuilds (userGuilds user)) as [e | managed]; [reflexivity |].
  destruct (fetch_botGuilds env up) as [trace [e | botGuilds]]; simpl.
  - reflexivity.
  - destruct (js_map (guild_entry botGuilds) managed) as [e | guilds]; simpl;
      now rewrite app_nil_r.
Qed.

(** ** From a request to its handler *)

(** Outside the three [/auth] routes a request runs the handler of its route
    on the identity of its session, and the store is only touched. *)
Lemma handle_dispatch env store up rq :
  auth_route (Http.route rq) = false ->
  let run := dispatch env (Http.route rq) (express_req (identity store rq) rq) up in
  trace_of (handle env store up rq) = fst run /\
  response_of (handle env store up rq) = snd run /\
  store_of (handle env store up rq) =
    (let '(store', loaded) := load_session store (Http.cookie rq) (Http.now rq) in
     touch store' loaded (Http.now rq)).
Proof.
  intros Hroute run. subst run.
  unfold handle, identity, trace_of, response_of, store_of.
  destruct (load_session store (Http.cookie rq) (Http.now rq)) as [store' loaded].
  cbv beta iota zeta. cbn [snd].
  destruct (Http.route rq); try discriminate Hroute; cbv beta iota zeta;
    match goal with
    | |- context [dispatch env ?r ?q up] => destruct (dispatch env r q up)
    end; repeat split; reflexivity.
Qed.

Lemma isAuthenticated_user req user next :
  Req.user req = Some user -> isAuthenticated req next = next.
Proof. unfold isAuthenticated, req_isAuthenticated. now intros ->. Qed.

Lemma isAuthenticated_anonymous req next :
  Req.user req = None -> isAuthenticated req next = ret (Res.redirect "/").
Proof. unfold isAuthenticated, req_isAuthenticated. now intros ->. Qed.

(** ** The selector lists the guilds with the manage-server bit *)

Lemma managedGuilds_total (gs : list Guild.t) :
  Forall (fun g => is_Some (bitmask g)) gs ->
  managedGuilds gs = inr (with_manage_bit gs).
Proof.
  intros Hall. unfold managedGuilds, with_manage_bit.
  rewrite js_filter_total.
  - f_equal. apply List.filter_ext. intros g.
    destruct (bitmask g) as [z |] eqn:Hz.
    + now rewrite (has_manage_server_bitmask g z Hz).
    + unfold bitmask in Hz. unfold has_manage_server.
      destruct (Js.BigInt _); [reflexivity | discriminate].
  - eapply List.Forall_impl; [| exact Hall]. intros g [z Hz]. simpl.
    exists (bit_0x20_set z). now apply has_manage_server_bitmask.
Qed.

Lemma managedGuilds_inv (gs managed : list Guild.t) :
  managedGuilds gs = inr managed ->
  Forall (fun g => is_Some (bitmask g)) gs /\ managed = with_manage_bit gs.
Proof.
  intros H. apply js_filter_inv in H as [Hall ->]. split.
  - eapply List.Forall_impl; [| exact Hall]. intros g [b Hb]. simpl in Hb.
    destruct (has_manage_server_inv g b Hb) as (z & Hz & _). now exists z.
  - unfold with_manage_bit. apply List.filter_ext_in. intros g Hg.
    rewrite List.Forall_forall in Hall. destruct (Hall g Hg) as [b Hb].
    destruct (has_manage_server_inv g b Hb) as (z & Hz & Hbit).
    now rewrite Hb, Hz.
Qed.

Lemma guild_entry_ids (botGuilds : Js.value) (managed : list Guild.t)
    (entries : list GuildEntry.t) :
  js_map (guild_entry botGuilds) managed = inr entries ->
  List.map GuildEntry.id entries = List.map Guild.id managed.
Proof.
  intros H. apply js_map_inv in H.
  induction H as [| g e managed entries Hge _ IH]; simpl; [reflexivity |].
  f_equal; [| exact IH]. unfold guild_entry in Hge.
  destruct (Js.includes botGuilds (Guild.id g)); [discriminate |].
  simpl in Hge. now injection Hge as <-.
Qed.

Lemma guild_entry_total (botGuilds : Js.value) (managed : list Guild.t) :
  has_includes botGuilds = true ->
  exists entries, js_map (guild_entry botGuilds) managed = inr entries.
Proof.
  intros Hinc. induction managed as [| g managed [entries IH]]; simpl; [eauto |].
  rewrite IH. unfold guild_entry.
  destruct botGuilds as [[| | | |] | |]; try discriminate Hinc; simpl; eauto.
Qed.

Lemma fetch_botGuilds_listable env up :
  guilds_listable (up (bot_guilds_request env)) = true ->
  exists trace botGuilds,
    fetch_botGuilds env up = (trace, inr botGuilds) /\ has_includes botGuilds = true.
Proof.
  rewrite fetch_botGuilds_run. unfold guilds_listable.
  destruct (up (bot_guilds_request env)) as [message | d]; [eauto |].
  destruct (Js.get_guilds d) as [e | listed]; [eauto |].
  unfold Js.or_else. destruct (Js.truthy listed); simpl; eauto.
Qed.

Lemma NoDup_map_inj {A B} (f : A -> B) (xs : list A) (x y : A) :
  NoDup (List.map f xs) -> In x xs -> In y xs -> f x = f y -> x = y.
Proof.
  induction xs as [| a xs IH]; simpl; [tauto |].
  intros Hnd Hx Hy Hxy. inversion Hnd as [| b bs Hnotin Hnd']; subst.
  assert (Hin : forall z, In z xs -> In (f z) (List.map f xs))
    by (intros z; apply in_map).
  destruct Hx as [-> | Hx], Hy as [-> | Hy]; auto.
  - exfalso. apply Hnotin. rewrite Hxy. apply list_elem_of_In. auto.
  - exfalso. apply Hnotin. rewrite <- Hxy. apply list_elem_of_In. auto.
Qed.

(** The selector lists the memberships that the filter keeps. *)
Lemma get_dashboard_lists_manage_bit env store up rq user :
  Http.route rq = GET_dashboard ->
  identity store rq = Some user ->
  Forall (fun g => is_Some (bitmask g)) (userGuilds user) ->
  guilds_listable (up (bot_guilds_request env)) = true ->
  exists entries,
    response_of (handle env store up rq) = inr (selector_page env (Some user) entries) /\
    List.map GuildEntry.id entries =
      List.map Guild.id (with_manage_bit (userGuilds user)).
Proof.
  intros Hroute Huser Hmasks Hup.
  destruct (handle_dispatch env store up rq) as (_ & Hres & _);
    [now rewrite Hroute |].
  rewrite Hres, Hroute, Huser. cbn [dispatch].
  rewrite (isAuthenticated_user _ user) by reflexivity.
  rewrite (get_dashboard_run env _ user) by reflexivity.
  rewrite (managedGuilds_total _ Hmasks).
  destruct (fetch_botGuilds_listable env up Hup) as (trace & botGuilds & -> & Hinc).
  destruct (guild_entry_total botGuilds (with_manage_bit (userGuilds user)) Hinc)
    as [entries Hentries].
  rewrite Hentries. cbn [snd].
  exists entries. split; [reflexivity |]. exact (guild_entry_ids _ _ _ Hentries).
Qed.

(** C1. For an authenticated identity whose memberships each carry a
    permission bitmask (a string of decimal digits, a [0x] literal or an
    integral Number, denoting an integer of any size), and a bot-guilds
    answer the page can use, [GET /dashboard] renders the selector, and its
    list is exactly the memberships whose bitmask has bit [0x20] set: the
    list is the membership list filtered by any test that agrees with bit 5
    of the denoted integer, and a guild appears in it if and only if bit 5
    of the integer that its [permissions] denote is set.  The integer is the
    one the digits denote, so nothing is lost beyond [2^53]. *)
Theorem selector_lists_guilds_with_bit_0x20 env store up rq user :
  Http.route rq = GET_dashboard ->
  identity store rq = Some user ->
  Forall (fun g => exists z, denotes (Guild.permissions g) z) (userGuilds user) ->
  guilds_listable (up (bot_guilds_request env)) = true ->
  exists res entries,
    response_of (handle env store up rq) = inr res /\
    Res.status res = 200 /\
    selector_list res = Some entries /\
    (forall keep : Guild.t -> bool,
       (forall g z, In g (userGuilds user) -> denotes (Guild.permissions g) z ->
          keep g = bit_0x20_set z) ->
       List.map GuildEntry.id entries =
         List.map Guild.id (List.filter keep (userGuilds user))) /\
    (NoDup (List.map Guild.id (userGuilds user)) ->
     forall g z, In g (userGuilds user) -> denotes (Guild.permissions g) z ->
       (In (Guild.id g) (List.map GuildEntry.id entries) <-> bit_0x20_set z = true)).
Proof.
  intros Hroute Huser Hdenote Hup.
  assert (Hmasks : Forall (fun g => is_Some (bitmask g)) (userGuilds user)).
  { eapply List.Forall_impl; [| exact Hdenote].
    intros g [z Hz]. exists z. now apply denotes_bitmask. }
  destruct (get_dashboard_lists_manage_bit env store up rq user Hroute Huser Hmasks Hup)
    as (entries & Hres & Hids).
  exists (selector_page env (Some user) entries), entries.
  do 3 (split; [assumption || reflexivity |]).
  assert (Hkeep : forall keep : Guild.t -> bool,
             (forall g z, In g (userGuilds user) -> denotes (Guild.permissions g) z ->
                keep g = bit_0x20_set z) ->
             with_manage_bit (userGuilds user) = List.filter keep (userGuilds user)).
  { intros keep Hagree. unfold with_manage_bit. apply List.filter_ext_in. intros g Hg.
    rewrite List.Forall_forall in Hdenote. destruct (Hdenote g Hg) as [z Hz].
    now rewrite (denotes_bitmask g z Hz), (Hagree g z Hg Hz). }
  split.
  - intros keep Hagree. now rewrite Hids, (Hkeep keep Hagree).
  - intros Hnodup g z Hg Hz. rewrite Hids. unfold with_manage_bit. split.
    + intros Hin. apply in_map_iff in Hin as (g' & Hid & Hg').
      apply List.filter_In in Hg' as [Hg' Hbit].
      assert (g' = g) as -> by (eapply NoDup_map_inj; eauto).
      now rewrite (denotes_bitmask g z Hz) in Hbit.
    + intros Hbit. apply in_map, List.filter_In. split; [assumption |].
      now rewrite (denotes_bitmask g z Hz).
Qed.

(** ** The guild-scoped pages *)

Lemma js_find_guild (guildId : string) (gs : list Guild.t) :
  js_find (fun g => String.eqb (Guild.id g) guildId) gs = None <->
  ~ In guildId (List.map Guild.id gs).
Proof.
  rewrite js_find_none, List.Forall_forall. split.
  - intros H Hin. apply in_map_iff in Hin as (g & <- & Hg).
    specialize (H g Hg). now rewrite String.eqb_refl in H.
  - intros H g Hg. apply String.eqb_neq. intros <-. apply H. now apply in_map.
Qed.

(** A guild-scoped page, step by step. *)
Lemma page_handler_run env p req user up :
  Req.user req = Some user ->
  let request := guild_info_request env (Req.guildId req) in
  page_handler env p req up =
    match js_find (fun g => String.eqb (Guild.id g) (Req.guildId req)) (userGuilds user) with
    | None => ([], inr access_denied)
    | Some _ =>
        match up request with
        | inr d => ([HttpRequest request], inr (page_rendered env p (Some user) d))
        | inl message =>
            ([HttpRequest request;
              api_error_line ("/api/guilds/" ++ Req.guildId req ++ "/info")
                (Js.AxiosError message);
              page_error_line p (Js.AxiosError message)],
             inr (Res.send 500 (page_error_text p)))
        end
    end.
Proof.
  intros Huser request. subst request.
  assert (Hrequest : forall g, guild_info_request env g =
            bot_request env ("/api/guilds/" ++ g ++ "/info") (default "GET" None)
              (sent_data (Js.Prim Js.Undefined))) by reflexivity.
  destruct p; cbn [page_handler];
    unfold get_dashboard_guild, get_dashboard_aichat, get_dashboard_suggestions,
      try_catch, bind at 1, lift, find_userGuild, req_user;
    rewrite Huser; cbn [bindE];
    (destruct (js_find _ (userGuilds user)) as [found |]; [| reflexivity]);
    unfold bind; rewrite callBotAPI_run, Hrequest; cbv zeta;
    destruct (up _) as [message | d]; reflexivity.
Qed.

Lemma dispatch_page env p guildId req :
  dispatch env (page_route p guildId) req = isAuthenticated req (page_handler env p req).
Proof. now destruct p. Qed.

Lemma page_route_not_auth p guildId : auth_route (page_route p guildId) = false.
Proof. now destruct p. Qed.

Lemma page_route_guildId p guildId : route_guildId (page_route p guildId) = guildId.
Proof. now destruct p. Qed.

(** One request to a guild-scoped page by an authenticated client. *)
Lemma handle_page env store up rq user p guildId :
  Http.route rq = page_route p guildId ->
  identity store rq = Some user ->
  (trace_of (handle env store up rq), response_of (handle env store up rq)) =
    match js_find (fun g => String.eqb (Guild.id g) guildId) (userGuilds user) with
    | None => ([], inr access_denied)
    | Some _ =>
        match up (guild_info_request env guildId) with
        | inr d => ([HttpRequest (guild_info_request env guildId)],
                    inr (page_rendered env p (Some user) d))
        | inl message =>
            ([HttpRequest (guild_info_request env guildId);
              api_error_line ("/api/guilds/" ++ guildId ++ "/info") (Js.AxiosError message);
              page_error_line p (Js.AxiosError message)],
             inr (Res.send 500 (page_error_text p)))
        end
    end.
Proof.
  intros Hroute Huser.
  destruct (handle_dispatch env store up rq) as (Htrace & Hres & _);
    [rewrite Hroute; apply page_route_not_auth |].
  rewrite Htrace, Hres, <- surjective_pairing, Hroute, Huser, dispatch_page.
  rewrite (isAuthenticated_user _ user) by reflexivity.
  rewrite (page_handler_run env p _ user) by reflexivity.
  unfold express_req. cbn [Req.guildId]. now rewrite Hroute, page_route_guildId.
Qed.

(** Whatever selector page is rendered, it was computed from the identity of
    that request's session. *)
Lemma selector_rendered env store up rq res entries :
  Http.route rq = GET_dashboard ->
  response_of (handle env store up rq) = inr res ->
  selector_list res = Some entries ->
  exists user botGuilds,
    identity store rq = Some user /\
    Forall (fun g => is_Some (bitmask g)) (userGuilds user) /\
    js_map (guild_entry botGuilds) (with_manage_bit (userGuilds user)) = inr entries.
Proof.
  intros Hroute Hres Hlist.
  destruct (handle_dispatch env store up rq) as (_ & Hrun & _);
    [now rewrite Hroute |].
  rewrite Hrun, Hroute in Hres. cbn [dispatch] in Hres.
  destruct (identity store rq) as [user |] eqn:Huser.
  2: { rewrite isAuthenticated_anonymous in Hres by reflexivity.
       injection Hres as <-. discriminate Hlist. }
  rewrite (isAuthenticated_user _ user) in Hres by reflexivity.
  rewrite (get_dashboard_run env _ user) in Hres by reflexivity.
  destruct (managedGuilds (userGuilds user)) as [e | managed] eqn:Hmanaged.
  { injection Hres as <-. discriminate Hlist. }
  apply managedGuilds_inv in Hmanaged as [Hmasks ->].
  destruct (fetch_botGuilds_returns env up) as (trace & botGuilds & Hfetch & _).
  rewrite Hfetch in Hres.
  destruct (js_map (guild_entry botGuilds) _) as [e | guilds] eqn:Hmap;
    cbn [snd] in Hres; injection Hres as <-; [discriminate Hlist |].
  injection Hlist as <-. eauto.
Qed.

(** C2. On the three guild-scoped pages an authenticated client is let in if
    and only if the guild id occurs among the memberships of its identity;
    the permission bitmask plays no part.  A member whose call for the guild
    info succeeds gets the page with status 200, and when the memberships of
    that id fail the [0x20] test no rendered selector lists the guild. *)
Theorem guild_pages_allow_members env store up rq user page guildId :
  Http.route rq = page_route page guildId ->
  identity store rq = Some user ->
  (response_of (handle env store up rq) <> inr access_denied <->
   In guildId (List.map Guild.id (userGuilds user))) /\
  (In guildId (List.map Guild.id (userGuilds user)) ->
   forall d, up (guild_info_request env guildId) = inr d ->
     exists res,
       response_of (handle env store up rq) = inr res /\
       Res.status res = 200 /\
       rendered_guild res = Some (page_view page, d)) /\
  ((forall g z, In g (userGuilds user) -> Guild.id g = guildId ->
                bitmask g = Some z -> bit_0x20_set z = false) ->
   forall up' rq' res entries,
     Http.route rq' = GET_dashboard ->
     identity store rq' = Some user ->
     response_of (handle env store up' rq') = inr res ->
     selector_list res = Some entries ->
     ~ In guildId (List.map GuildEntry.id entries)).
Proof.
  intros Hroute Huser.
  pose proof (handle_page env store up rq user page guildId Hroute Huser) as Hrun.
  apply (f_equal snd) in Hrun. cbn [snd] in Hrun.
  pose proof (js_find_guild guildId (userGuilds user)) as Hfind.
  split; [| split].
  - rewrite Hrun. destruct (js_find _ (userGuilds user)) as [found |].
    + split.
      * intros _. destruct (in_dec String.string_dec guildId
                              (List.map Guild.id (userGuilds user))) as [Hin | Hout];
          [assumption |]. apply Hfind in Hout. discriminate Hout.
      * intros _. destruct (up _); destruct page; discriminate.
    + split; [now intros H | ]. intros Hin. exfalso. now apply Hfind.
  - intros Hin d Hd. rewrite Hrun, Hd.
    destruct (js_find _ (userGuilds user)) as [found |].
    + exists (page_rendered env page (Some user) d). now destruct page.
    + exfalso. now apply Hfind.
  - intros Hfails up' rq' res entries Hroute' Huser' Hres Hlist Hin.
    destruct (selector_rendered env store up' rq' res entries Hroute' Hres Hlist)
      as (user' & botGuilds & Huser'' & _ & Hentries).
    assert (user' = user) as -> by congruence.
    rewrite (guild_entry_ids _ _ _ Hentries) in Hin.
    apply in_map_iff in Hin as (g & Hid & Hg).
    unfold with_manage_bit in Hg. apply List.filter_In in Hg as [Hg Hbit].
    destruct (bitmask g) as [z |] eqn:Hz; [| discriminate].
    rewrite (Hfails g z Hg Hid Hz) in Hbit. discriminate.
Qed.

(** C3. A request for [/dashboard/:guildId] by an authenticated client whose
    identity has no membership with that id is answered 403 with the fixed
    text, whatever the upstream would say; nothing is requested upstream and
    nothing is logged. *)
Theorem non_member_gets_403_without_upstream_call env store up rq user guildId :
  Http.route rq = GET_dashboard_guild guildId ->
  identity store rq = Some user ->
  ~ In guildId (List.map Guild.id (userGuilds user)) ->
  response_of (handle env store up rq) =
    inr {| Res.status := 403; Res.body := Res.Text "Access denied" |} /\
  trace_of (handle env store up rq) = [] /\
  http_requests (trace_of (handle env store up rq)) = [].
Proof.
  intros Hroute Huser Hout.
  pose proof (handle_page env store up rq user Overview guildId Hroute Huser) as Hrun.
  apply js_find_guild in Hout. rewrite Hout in Hrun.
  injection Hrun as -> ->. repeat split.
Qed.

(** ** The JSON proxy routes *)

(** A proxy route, step by step: one call, whose answer decides between the
    forwarded body and the fixed failure body. *)
Lemma api_run env r req user up :
  api_route r = true ->
  Req.user req = Some user ->
  Req.guildId req = route_guildId r ->
  let request := api_request env r (Req.body req) in
  dispatch env r req up =
    match up request with
    | inr d => ([HttpRequest request], inr (Res.json 200 d))
    | inl message =>
        ([HttpRequest request; api_error_line (api_endpoint r) (Js.AxiosError message)],
         inr (Res.json 500 (error_body (api_failure_message r))))
    end.
Proof.
  intros Hapi Huser Hguild request. subst request.
  destruct r; try discriminate Hapi; cbn [dispatch];
    rewrite (isAuthenticated_user _ user) by assumption;
    unfold get_api_guilds_channels, get_api_aichat_config, post_api_aichat_save,
      post_api_aichat_reset_memory, get_api_analytics, get_api_suggestions_config,
      get_api_suggestions_stats, post_api_suggestions_setup, post_api_suggestions_toggle,
      try_catch, bind;
    rewrite callBotAPI_run; cbv zeta; rewrite ?Hguild;
    unfold api_request; cbn [api_endpoint api_posts route_guildId default];
    change (sent_data (Js.Prim Js.Undefined)) with (@None Js.value);
    destruct (up _) as [message | d]; reflexivity.
Qed.

Lemma api_route_not_auth r : api_route r = true -> auth_route r = false.
Proof. now destruct r. Qed.

Lemma api_route_protected r : api_route r = true -> protected r = true.
Proof. now destruct r. Qed.

(** One request to a proxy route by an authenticated client. *)
Lemma handle_api env store up rq user :
  api_route (Http.route rq) = true ->
  identity store rq = Some user ->
  let request := api_request env (Http.route rq) (Http.body rq) in
  (trace_of (handle env store up rq), response_of (handle env store up rq)) =
    match up request with
    | inr d => ([HttpRequest request], inr (Res.json 200 d))
    | inl message =>
        ([HttpRequest request;
          api_error_line (api_endpoint (Http.route rq)) (Js.AxiosError message)],
         inr (Res.json 500 (error_body (api_failure_message (Http.route rq)))))
    end.
Proof.
  intros Hapi Huser request. subst request.
  destruct (handle_dispatch env store up rq) as (Htrace & Hres & _);
    [now apply api_route_not_auth |].
  rewrite Htrace, Hres, <- surjective_pairing, Huser.
  now rewrite (api_run env _ _ user).
Qed.

(** ** Sessions and the auth gate *)

Lemma identity_none_iff store rq : identity store rq = None <-> anonymous store rq.
Proof.
  unfold identity, anonymous, load_session.
  destruct (Http.cookie rq) as [sid |]; [| easy].
  destruct (store !! sid) as [s |]; [| easy].
  destruct (Z.leb_spec (Session.expires s) (Http.now rq)); cbn [snd session_user].
  - split; auto.
  - split; [auto |]. intros [Hexp | Hnone]; [lia | assumption].
Qed.

Lemma no_session_identity store rq :
  no_session store (Http.cookie rq) -> identity store rq = None.
Proof.
  intros H. apply identity_none_iff. unfold anonymous, no_session in *.
  destruct (Http.cookie rq); [now rewrite H | exact I].
Qed.

(** A protected handler answers an authenticated client itself: it returns a
    response, and that response is not a redirect. *)
Lemma protected_responds env r req user up :
  protected r = true ->
  Req.user req = Some user ->
  Req.guildId req = route_guildId r ->
  exists res, snd (dispatch env r req up) = inr res /\ is_redirect res = false.
Proof.
  intros Hprot Huser Hguild.
  destruct (api_route r) eqn:Hapi.
  { rewrite (api_run env r req user up Hapi Huser Hguild).
    destruct (up _); eauto. }
  destruct r; try discriminate Hprot; try discriminate Hapi; cbn [dispatch];
    rewrite (isAuthenticated_user _ user) by assumption.
  - rewrite (get_dashboard_run env _ user) by assumption.
    destruct (managedGuilds _); [eauto |].
    destruct (fetch_botGuilds env up) as [trace [e | botGuilds]]; [eauto |].
    destruct (js_map _ _); eauto.
  - change (get_dashboard_guild env) with (page_handler env Overview).
    rewrite (page_handler_run env _ _ user) by assumption.
    destruct (js_find _ _); [| eauto]. destruct (up _); eauto.
  - change (get_dashboard_aichat env) with (page_handler env AiChat).
    rewrite (page_handler_run env _ _ user) by assumption.
    destruct (js_find _ _); [| eauto]. destruct (up _); eauto.
  - change (get_dashboard_suggestions env) with (page_handler env Suggestions).
    rewrite (page_handler_run env _ _ user) by assumption.
    destruct (js_find _ _); [| eauto]. destruct (up _); eauto.
Qed.

Lemma protected_not_auth r : protected r = true -> auth_route r = false.
Proof. now destruct r. Qed.

Lemma protected_anonymous env r req :
  protected r = true -> Req.user req = None ->
  dispatch env r req = ret (Res.redirect "/").
Proof.
  intros Hprot Huser.
  destruct r; try discriminate Hprot; cbn [dispatch];
    now rewrite isAuthenticated_anonymous.
Qed.

(** Without identity a protected route only redirects. *)
Lemma handle_protected_anonymous env store up rq :
  protected (Http.route rq) = true ->
  identity store rq = None ->
  response_of (handle env store up rq) = inr (Res.redirect "/") /\
  trace_of (handle env store up rq) = [].
Proof.
  intros Hprot Hnone.
  destruct (handle_dispatch env store up rq) as (Htrace & Hres & _);
    [now apply protected_not_auth |].
  rewrite Htrace, Hres, Hnone. now rewrite protected_anonymous.
Qed.

(** C4. On a protected route a request whose session resolves to no identity
    (no cookie, an unknown or expired session, a session without user) is
    redirected to [/], with nothing requested upstream and nothing rendered;
    and the redirect is the answer exactly when there is no identity. *)
Theorem protected_routes_redirect_without_identity env store up rq :
  protected (Http.route rq) = true ->
  (anonymous store rq ->
   response_of (handle env store up rq) = inr (Res.redirect "/") /\
   trace_of (handle env store up rq) = []) /\
  (response_of (handle env store up rq) = inr (Res.redirect "/") <->
   identity store rq = None) /\
  (forall req, (forall next, isAuthenticated req next = next) <-> Req.user req <> None).
Proof.
  intros Hprot.
  destruct (handle_dispatch env store up rq) as (Htrace & Hres & _);
    [now apply protected_not_auth |].
  pose proof (handle_protected_anonymous env store up rq Hprot) as Hanon.
  split; [| split].
  - intros H. apply Hanon. now apply identity_none_iff.
  - split; [| intros H; now apply Hanon].
    destruct (identity store rq) as [user |] eqn:Huser; [| reflexivity].
    rewrite Hres. intros Hredirect. exfalso.
    destruct (protected_responds env (Http.route rq) (express_req (Some user) rq)
                user up Hprot eq_refl eq_refl) as (res & Hrun & Hnot).
    rewrite Hrun in Hredirect. injection Hredirect as ->. discriminate Hnot.
  - intros req. unfold isAuthenticated, req_isAuthenticated. split.
    + intros Hall Hnone. rewrite Hnone in Hall.
      specialize (Hall (ret (Res.send 200 ""))).
      apply (f_equal (fun m => m (fun _ => inl ""))) in Hall. discriminate Hall.
    + intros Hsome k. now destruct (Req.user req).
Qed.

(** ** Logout *)

(** Passport calls the callback of [req.logout] once, without error, with a
    store from which the client's session is gone and with a new session
    that holds no user. *)
Lemma req_logout_calls_back {R : Type} (store : gmap string Session.t)
    (loaded : option (string * Session.t)) (fresh : string) (now : Z)
    (done : option Js.Exn -> gmap string Session.t -> string * Session.t -> R) :
  req_logout store loaded fresh now done =
    done None (session_destroy store loaded)
      (fresh, {| Session.user := None; Session.expires := now + maxAge |}) /\
  forall sid s, loaded = Some (sid, s) -> session_destroy store loaded !! sid = None.
Proof.
  split; [reflexivity |]. intros sid s ->. apply lookup_delete_eq.
Qed.

(** What [GET /auth/logout] leaves and answers. *)
Lemma handle_logout env store up rq :
  Http.route rq = GET_auth_logout ->
  handle env store up rq =
    (<[Http.fresh_sid rq := {| Session.user := None;
                               Session.expires := Http.now rq + maxAge |}]>
       (session_destroy (fst (load_session store (Http.cookie rq) (Http.now rq)))
                        (snd (load_session store (Http.cookie rq) (Http.now rq)))),
     [], inr (Res.redirect "/")).
Proof.
  intros Hroute. unfold handle. rewrite Hroute.
  now destruct (load_session store (Http.cookie rq) (Http.now rq)) as [store' loaded].
Qed.

(** The session of the request's cookie is not in the store once it was
    destroyed. *)
Lemma destroyed_session_gone store rq sid :
  Http.cookie rq = Some sid ->
  session_destroy (fst (load_session store (Http.cookie rq) (Http.now rq)))
                  (snd (load_session store (Http.cookie rq) (Http.now rq))) !! sid = None.
Proof.
  intros Hcookie. unfold load_session. rewrite Hcookie.
  destruct (store !! sid) as [s |] eqn:Hs; [| exact Hs].
  destruct (Session.expires s <=? Http.now rq); cbn; apply lookup_delete_eq.
Qed.

Lemma load_session_keeps_no_user store cookie now sid :
  no_user store sid ->
  no_user (fst (load_session store cookie now)) sid /\
  forall s, snd (load_session store cookie now) = Some (sid, s) -> Session.user s = None.
Proof.
  unfold no_user. intros Hsid. unfold load_session.
  destruct cookie as [sid0 |]; [| now split].
  destruct (store !! sid0) as [s0 |] eqn:Hs0; [| now split].
  destruct (Session.expires s0 <=? now); cbn [fst snd].
  - split; [| discriminate]. intros s Hs. apply lookup_delete_Some in Hs as [_ Hs]. eauto.
  - split; [assumption |]. intros s [= <- <-]. eauto.
Qed.

Lemma touch_keeps_no_user store loaded now sid :
  no_user store sid ->
  (forall s, loaded = Some (sid, s) -> Session.user s = None) ->
  no_user (touch store loaded now) sid.
Proof.
  unfold no_user, touch. intros Hsid Hloaded. destruct loaded as [[sid0 s0] |]; [| assumption].
  intros s Hs. apply lookup_insert_Some in Hs as [[-> <-] | [_ Hs]]; [| eauto].
  exact (Hloaded s0 eq_refl).
Qed.

Lemma session_destroy_keeps_no_user store loaded sid :
  no_user store sid -> no_user (session_destroy store loaded) sid.
Proof.
  unfold no_user, session_destroy. intros Hsid. destruct loaded as [[sid0 s0] |]; [| assumption].
  intros s Hs. apply lookup_delete_Some in Hs as [_ Hs]. eauto.
Qed.

Lemma authenticate_keeps_no_user outcome failureRedirect next store loaded rq up sid :
  no_user store sid ->
  (forall s, loaded = Some (sid, s) -> Session.user s = None) ->
  match outcome with
  | AuthSuccess _ => Http.fresh_sid rq <> sid
  | _ => True
  end ->
  no_user (store_of (authenticate outcome failureRedirect next store loaded rq up)) sid.
Proof.
  intros Hsid Hloaded Hfresh. unfold authenticate, store_of.
  destruct outcome as [authorize_url | profile | | name].
  - now apply touch_keeps_no_user.
  - destruct (next _ up) as [trace response]. cbn [fst]. unfold req_login. intros s0 Hs.
    rewrite lookup_insert_ne in Hs by assumption.
    exact (session_destroy_keeps_no_user store loaded sid Hsid s0 Hs).
  - now apply touch_keeps_no_user.
  - unfold error_handler. destruct (_ || _).
    + now apply session_destroy_keeps_no_user.
    + now apply touch_keeps_no_user.
Qed.

(** A session id under which the store holds no user stays so until a login
    stores a profile under it. *)
Lemma handle_keeps_no_user env store up rq sid :
  no_user store sid ->
  logs_in_as sid rq = false ->
  no_user (store_of (handle env store up rq)) sid.
Proof.
  intros Hsid Hlogin.
  destruct (Http.route rq) eqn:Hroute;
    try (rewrite (handle_logout env store up rq Hroute); unfold store_of; cbn [fst];
         intros s Hs; apply lookup_insert_Some in Hs as [[_ <-] | [_ Hs]]; [reflexivity |];
         destruct (load_session_keeps_no_user store (Http.cookie rq) (Http.now rq) sid Hsid)
           as [Hstore _];
         exact (session_destroy_keeps_no_user _ _ sid Hstore s Hs));
    unfold handle;
    destruct (load_session_keeps_no_user store (Http.cookie rq) (Http.now rq) sid Hsid)
      as [Hstore Hloaded];
    destruct (load_session store (Http.cookie rq) (Http.now rq)) as [store' loaded];
    cbn [fst snd] in Hstore, Hloaded; unfold logs_in_as in Hlogin; rewrite Hroute in *;
    try (apply authenticate_keeps_no_user; [assumption | assumption |];
         destruct outcome; try exact I; now apply String.eqb_neq);
    try (match goal with
         | |- context [dispatch env ?r ?q up] => destruct (dispatch env r q up)
         end; now apply touch_keeps_no_user).
Qed.

Lemma serve_keeps_no_user env store history sid :
  no_user store sid ->
  Forall (fun '(_, rq) => logs_in_as sid rq = false) history ->
  no_user (fst (serve env store history)) sid.
Proof.
  intros Hsid Hhistory. revert store Hsid.
  induction Hhistory as [| [up rq] history Hrq _ IH]; intros store Hsid; [assumption |].
  cbn [serve]. pose proof (handle_keeps_no_user env store up rq sid Hsid Hrq) as Hnext.
  unfold store_of in Hnext.
  destruct (handle env store up rq) as [[store' trace] response]. cbn [fst] in Hnext.
  specialize (IH store' Hnext). now destruct (serve env store' history).
Qed.

Lemma no_user_identity store rq :
  (forall sid, Http.cookie rq = Some sid -> no_user store sid) ->
  identity store rq = None.
Proof.
  intros H. apply identity_none_iff. unfold anonymous.
  destruct (Http.cookie rq) as [sid |]; [| exact I].
  destruct (store !! sid) as [s |] eqn:Hs; [| exact I].
  right. exact (H sid eq_refl s Hs).
Qed.

(** C9. [GET /auth/logout] answers with the redirect to [/], sent by the
    callback that runs after passport removed the session.  The store no
    longer holds the session of the cookie the request came with; the
    client receives the cookie of the regenerated session, which is stored
    and holds no user.  From then on, through any further requests that do
    not log in under the old or the new session id, every request of that
    client to a protected route (with the new cookie, with the old one, or
    with none) is redirected to [/] with nothing requested upstream, as it
    is for a client the server has never seen. *)
Theorem logout_returns_client_to_anonymous env store up rq :
  Http.route rq = GET_auth_logout ->
  exists store',
    handle env store up rq = (store', [], inr (Res.redirect "/")) /\
    cookie_after rq = Some (Http.fresh_sid rq) /\
    store' !! Http.fresh_sid rq =
      Some {| Session.user := None; Session.expires := Http.now rq + maxAge |} /\
    (forall sid, Http.cookie rq = Some sid -> sid <> Http.fresh_sid rq ->
       store' !! sid = None) /\
    forall history up' rq',
      Forall (fun '(_, r) =>
                logs_in_as (Http.fresh_sid rq) r = false /\
                forall sid, Http.cookie rq = Some sid -> logs_in_as sid r = false)
             history ->
      Http.cookie rq' = cookie_after rq \/ Http.cookie rq' = Http.cookie rq \/
      Http.cookie rq' = None ->
      protected (Http.route rq') = true ->
      let later := fst (serve env store' history) in
      identity later rq' = None /\
      response_of (handle env later up' rq') = inr (Res.redirect "/") /\
      trace_of (handle env later up' rq') = [] /\
      response_of (handle env later up' rq') = response_of (handle env ∅ up' rq').
Proof.
  intros Hroute. eexists. split; [exact (handle_logout env store up rq Hroute) |].
  set (store' := <[Http.fresh_sid rq := _]> _).
  assert (Hafter : cookie_after rq = Some (Http.fresh_sid rq)).
  { unfold cookie_after. now rewrite Hroute. }
  assert (Hold : forall sid, Http.cookie rq = Some sid -> sid <> Http.fresh_sid rq ->
                   store' !! sid = None).
  { intros sid Hcookie Hne. unfold store'. rewrite lookup_insert_ne by congruence.
    now apply destroyed_session_gone. }
  split; [exact Hafter |]. split; [apply lookup_insert_eq |]. split; [exact Hold |].
  intros history up' rq' Hhistory Hcookie Hprot later.
  assert (Hlater : identity later rq' = None).
  { apply no_user_identity. intros sid Hsid.
    assert (Hwhich : sid = Http.fresh_sid rq \/ Http.cookie rq = Some sid).
    { destruct Hcookie as [Hc | [Hc | Hc]]; [left | right | congruence]; congruence. }
    apply serve_keeps_no_user.
    - destruct (decide (sid = Http.fresh_sid rq)) as [-> | Hne].
      + intros s Hs. unfold store' in Hs. rewrite lookup_insert_eq in Hs.
        now injection Hs as <-.
      + destruct Hwhich as [-> | Hc]; [congruence |].
        intros s Hs. rewrite (Hold sid Hc Hne) in Hs. discriminate Hs.
    - eapply List.Forall_impl; [| exact Hhistory].
      intros [up0 r] [Hnew Hprev]. destruct Hwhich as [-> | Hc]; [exact Hnew | now apply Hprev]. }
  destruct (handle_protected_anonymous env later up' rq' Hprot Hlater) as [Hres Htrace].
  destruct (handle_protected_anonymous env ∅ up' rq' Hprot) as [Hres0 _].
  { apply no_session_identity. unfold no_session.
    destruct (Http.cookie rq'); [apply lookup_empty | exact I]. }
  repeat split; try assumption. now rewrite Hres, Hres0.
Qed.

(** ** The selector when the bot's guilds cannot be fetched *)

Lemma guild_entry_no_bot_guilds (g : Guild.t) :
  exists e, guild_entry (Js.Arr []) g = inr e /\ GuildEntry.botInGuild e = false.
Proof. unfold guild_entry. simpl. eauto. Qed.

Lemma js_map_no_bot_guilds (managed : list Guild.t) :
  exists entries,
    js_map (guild_entry (Js.Arr [])) managed = inr entries /\
    Forall (fun e => GuildEntry.botInGuild e = false) entries.
Proof.
  induction managed as [| g managed (entries & IH & Hall)]; cbn [js_map].
  - exists []. split; [reflexivity | constructor].
  - destruct (guild_entry_no_bot_guilds g) as (e & He & Hfalse).
    rewrite He, IH. cbn [bindE]. exists (e :: entries). split; [reflexivity |].
    now constructor.
Qed.

(** C5. When [GET /dashboard] performs the bot-guilds call and the call
    fails, the selector page is still rendered with status 200, it lists the
    same guilds, each with [botInGuild = false], and the failure is logged
    by [callBotAPI] and by the handler. *)
Theorem bot_guilds_failure_degrades_selector env store up rq user message :
  Http.route rq = GET_dashboard ->
  identity store rq = Some user ->
  up (bot_guilds_request env) = inl message ->
  In (HttpRequest (bot_guilds_request env)) (trace_of (handle env store up rq)) ->
  exists res entries,
    response_of (handle env store up rq) = inr res /\
    Res.status res = 200 /\
    selector_list res = Some entries /\
    Forall (fun e => GuildEntry.botInGuild e = false) entries /\
    List.map GuildEntry.id entries =
      List.map Guild.id (with_manage_bit (userGuilds user)) /\
    In (api_error_line "/api/bot/guilds" (Js.AxiosError message))
       (trace_of (handle env store up rq)) /\
    In (bot_guilds_failure_line (Js.AxiosError message))
       (trace_of (handle env store up rq)).
Proof.
  intros Hroute Huser Hfail Hcalled.
  destruct (handle_dispatch env store up rq) as (Htrace & Hres & _);
    [now rewrite Hroute |].
  rewrite Htrace in *. rewrite Hres. clear Htrace Hres.
  rewrite Hroute, Huser in *. cbn [dispatch] in *.
  rewrite (isAuthenticated_user _ user) in * by reflexivity.
  rewrite (get_dashboard_run env _ user) in * by reflexivity.
  destruct (managedGuilds (userGuilds user)) as [e | managed] eqn:Hmanaged.
  { cbn in Hcalled. destruct Hcalled as [Hcalled | []]. discriminate Hcalled. }
  apply managedGuilds_inv in Hmanaged as [_ ->].
  rewrite fetch_botGuilds_run, Hfail in *.
  destruct (js_map_no_bot_guilds (with_manage_bit (userGuilds user)))
    as (entries & Hentries & Hall).
  rewrite Hentries in *. cbn [fst snd].
  exists (selector_page env (Some user) entries), entries.
  do 3 (split; [reflexivity |]). split; [exact Hall |].
  split; [exact (guild_entry_ids _ _ _ Hentries) |].
  split; simpl; auto.
Qed.

(** ** Forwarding on the proxy routes *)

Lemma value_ind_nested (P : Js.value -> Prop) :
  (forall p, P (Js.Prim p)) ->
  (forall items, Forall P items -> P (Js.Arr items)) ->
  (forall fields, Forall (fun field => P (snd field)) fields -> P (Js.Obj fields)) ->
  forall v, P v.
Proof.
  intros Hp Ha Ho. fix IH 1. intros [p | items | fields].
  - apply Hp.
  - apply Ha. induction items as [| x xs IHxs]; constructor; [apply IH | exact IHxs].
  - apply Ho. induction fields as [| [k x] fs IHfs]; constructor; [apply IH | exact IHfs].
Qed.

(** A value of finite numbers without [undefined] arrives as it is. *)
Lemma json_wire_exact (v : Js.value) : json_exact v = true -> json_wire v = v.
Proof.
  induction v as [p | items IH | fields IH] using value_ind_nested.
  - destruct p as [| | b | [m e | |] | s]; (reflexivity || discriminate).
  - cbn [json_exact json_wire]. intros Hall. f_equal.
    induction IH as [| x xs Hx _ IHxs]; [reflexivity |].
    cbn [forallb List.map] in *. apply andb_prop in Hall as [Hexact Hrest].
    rewrite (IHxs Hrest), (Hx Hexact).
    now destruct x as [[| | | |] | |].
  - cbn [json_exact json_wire]. intros Hall. f_equal.
    induction IH as [| [k x] fs Hx _ IHfs]; [reflexivity |].
    cbn [forallb List.flat_map snd] in *. apply andb_prop in Hall as [Hexact Hrest].
    rewrite (IHfs Hrest), (Hx Hexact).
    now destruct x as [[| | | |] | |].
Qed.

(** What is sent for [res.json(d)] with status 200. *)
Lemma delivered_json (get fresh : bool) (d : Js.value) :
  delivered get fresh (Res.json 200 d) =
    if get && fresh then not_modified
    else match d with
         | Js.Prim Js.Undefined => Res.send 200 ""
         | _ => Res.json 200 (json_wire d)
         end.
Proof.
  unfold delivered. cbn [Res.json Res.status Res.body].
  change (200 <=? 200) with true. change (200 <? 300) with true.
  rewrite !andb_true_r. destruct (get && fresh); [reflexivity |].
  now destruct d as [[| | | |] | |].
Qed.

(** C6, as the spec states it, does not hold: the client does not always
    receive the upstream JSON value with status 200.  When the bot API
    answers [GET /api/guilds/Z/channels] with the number [1e400], the
    handler passes [Infinity] to [res.json] and the client receives [null];
    and when the client's cache validators match, it receives 304. *)
Lemma proxy_body_is_not_always_the_upstream_json :
  let rq := Scenario.request (Some "s1") 1000 (GET_api_guilds_channels "Z") in
  api_route (Http.route rq) = true /\
  identity Scenario.store rq = Some Scenario.alice /\
  Scenario.overflow (api_request ∅ (Http.route rq) (Http.body rq)) =
    inr (Js.Prim (Js.Num (Js.Infinity false))) /\
  exists res,
    response_of (handle ∅ Scenario.store Scenario.overflow rq) = inr res /\
    delivered (is_get (Http.route rq)) false res = Res.json 200 (Js.Prim Js.Null) /\
    delivered (is_get (Http.route rq)) false res <>
      Res.json 200 (Js.Prim (Js.Num (Js.Infinity false))) /\
    Res.status (delivered (is_get (Http.route rq)) true res) = 304.
Proof.
  cbv zeta. split; [reflexivity |]. split; [vm_compute; reflexivity |].
  split; [reflexivity |].
  eexists. split; [vm_compute; reflexivity |].
  split; [reflexivity |]. split; [discriminate | reflexivity].
Qed.

(** C6, amended.  On every JSON proxy route an authenticated request
    performs exactly one upstream call, and when that call succeeds the
    handler passes the upstream body itself to [res.json] with status 200.
    What the client receives is the JSON serialisation of that value with
    status 200: the value itself when its numbers are finite and it holds
    no [undefined].  The exception is a [GET] whose cache validators match
    the response, which is answered 304 without body. *)
Theorem proxy_forwards_upstream_json_as_serialised env store up rq user :
  api_route (Http.route rq) = true ->
  identity store rq = Some user ->
  http_requests (trace_of (handle env store up rq)) =
    [api_request env (Http.route rq) (Http.body rq)] /\
  forall d, up (api_request env (Http.route rq) (Http.body rq)) = inr d ->
    response_of (handle env store up rq) = inr (Res.json 200 d) /\
    trace_of (handle env store up rq) =
      [HttpRequest (api_request env (Http.route rq) (Http.body rq))] /\
    forall fresh,
      (is_get (Http.route rq) && fresh = true ->
       delivered (is_get (Http.route rq)) fresh (Res.json 200 d) = not_modified) /\
      (is_get (Http.route rq) && fresh = false ->
       (d <> Js.Prim Js.Undefined ->
        delivered (is_get (Http.route rq)) fresh (Res.json 200 d) =
          Res.json 200 (json_wire d)) /\
       (json_exact d = true ->
        delivered (is_get (Http.route rq)) fresh (Res.json 200 d) = Res.json 200 d)).
Proof.
  intros Hapi Huser.
  pose proof (handle_api env store up rq user Hapi Huser) as Hrun. cbv zeta in Hrun.
  destruct (up _) as [message | d']; injection Hrun as -> ->.
  - split; [reflexivity | discriminate].
  - split; [reflexivity |]. intros d [= <-]. do 2 (split; [reflexivity |]).
    intros fresh. rewrite delivered_json. split; [now intros -> |].
    intros ->. split.
    + intros Hdefined. now destruct d' as [[| | | |] | |].
    + intros Hexact. rewrite (json_wire_exact d' Hexact).
      now destruct d' as [[| | | |] | |].
Qed.

(** C7. When the upstream call of a JSON proxy route fails, the client
    receives status 500 with the route's fixed [error] message, the same
    whatever the upstream error was; the call was attempted once, and
    [callBotAPI] logged the failure with the endpoint. *)
Theorem proxy_failure_is_generic_500 env store up rq user message :
  api_route (Http.route rq) = true ->
  identity store rq = Some user ->
  up (api_request env (Http.route rq) (Http.body rq)) = inl message ->
  response_of (handle env store up rq) =
    inr {| Res.status := 500;
           Res.body := Res.Json
             (Js.Obj [("error", Js.Prim (Js.Str (api_failure_message (Http.route rq))))]) |} /\
  http_requests (trace_of (handle env store up rq)) =
    [api_request env (Http.route rq) (Http.body rq)] /\
  In (ConsoleError [LStr ("API Error [" ++ api_endpoint (Http.route rq) ++ "]:");
                    LMessage (Js.AxiosError message)])
     (trace_of (handle env store up rq)) /\
  (forall up' message',
     up' (api_request env (Http.route rq) (Http.body rq)) = inl message' ->
     response_of (handle env store up' rq) = response_of (handle env store up rq)).
Proof.
  intros Hapi Huser Hfail.
  pose proof (handle_api env store up rq user Hapi Huser) as Hrun. cbv zeta in Hrun.
  rewrite Hfail in Hrun. injection Hrun as Htrace Hres.
  rewrite Htrace, Hres. repeat split.
  - simpl. auto.
  - intros up' message' Hfail'.
    pose proof (handle_api env store up' rq user Hapi Huser) as Hrun'. cbv zeta in Hrun'.
    rewrite Hfail' in Hrun'. now injection Hrun' as _ ->.
Qed.

(** C10. The JSON proxy routes check authentication only: whatever the
    memberships of the authenticated identity, the request performs the
    upstream call of its route and forwards the answer, and two
    authenticated clients sending the same request obtain the same outcome,
    members of the guild or not. *)
Theorem proxy_routes_skip_guild_authorization env store up rq user :
  api_route (Http.route rq) = true ->
  identity store rq = Some user ->
  http_requests (trace_of (handle env store up rq)) =
    [api_request env (Http.route rq) (Http.body rq)] /\
  config_url (api_request env (Http.route rq) (Http.body rq)) =
    url (BOT_API env) ++ api_endpoint (Http.route rq) /\
  (forall d, up (api_request env (Http.route rq) (Http.body rq)) = inr d ->
     response_of (handle env store up rq) = inr (Res.json 200 d)) /\
  (forall store' rq' user',
     identity store' rq' = Some user' ->
     Http.route rq' = Http.route rq ->
     Http.body rq' = Http.body rq ->
     trace_of (handle env store' up rq') = trace_of (handle env store up rq) /\
     response_of (handle env store' up rq') = response_of (handle env store up rq)).
Proof.
  intros Hapi Huser.
  pose proof (handle_api env store up rq user Hapi Huser) as Hrun. cbv zeta in Hrun.
  split; [| split; [reflexivity | split]].
  - destruct (up _); now injection Hrun as -> _.
  - intros d Hd. rewrite Hd in Hrun. now injection Hrun as _ ->.
  - intros store' rq' user' Huser' Hroute' Hbody'.
    assert (Hapi' : api_route (Http.route rq') = true) by now rewrite Hroute'.
    pose proof (handle_api env store' up rq' user' Hapi' Huser') as Hrun'.
    cbv zeta in Hrun'. rewrite Hroute', Hbody', <- Hrun in Hrun'.
    now injection Hrun' as -> ->.
Qed.

(** ** The selector is computed from the identity of each request *)

Lemma dashboard_reads_user_only env req1 req2 :
  Req.user req1 = Req.user req2 ->
  dispatch env GET_dashboard req1 = dispatch env GET_dashboard req2.
Proof.
  intros H. cbn [dispatch].
  unfold isAuthenticated, req_isAuthenticated, get_dashboard, req_user.
  now rewrite H.
Qed.

Lemma Forall2_sources {A B} (R : A -> B -> Prop) (xs : list A) (ys : list B) :
  Forall2 R xs ys -> Forall (fun y => exists x, In x xs /\ R x y) ys.
Proof.
  induction 1 as [| x y xs ys Hxy _ IH]; constructor.
  - exists x. split; [now left | assumption].
  - eapply List.Forall_impl; [| exact IH].
    intros b (a & Ha & Hab). exists a. split; [now right | assumption].
Qed.

Lemma guild_entry_fields botGuilds g e :
  guild_entry botGuilds g = inr e ->
  GuildEntry.id e = Guild.id g /\ GuildEntry.name e = Guild.name g.
Proof.
  unfold guild_entry. destruct (Js.includes _ _); [discriminate |].
  cbn [bindE]. now intros [= <-].
Qed.

(** C8. Whatever requests the server handled before, every entry of a
    selector page it renders stands for a membership of the identity that
    this request's session holds now, with bit [0x20] set in its bitmask;
    and the page is a function of that identity alone: any request that
    resolves to the same identity gets the same outcome, whatever the store
    it is served from. *)
Theorem selector_entries_are_current_manageable_memberships
    env store history up rq res entries :
  let current := fst (serve env store history) in
  Http.route rq = GET_dashboard ->
  response_of (handle env current up rq) = inr res ->
  selector_list res = Some entries ->
  exists user,
    identity current rq = Some user /\
    Forall (fun e => exists g z,
              In g (userGuilds user) /\
              GuildEntry.id e = Guild.id g /\
              GuildEntry.name e = Guild.name g /\
              bitmask g = Some z /\
              bit_0x20_set z = true) entries /\
    (forall store' rq',
       Http.route rq' = GET_dashboard ->
       identity store' rq' = identity current rq ->
       response_of (handle env store' up rq') = inr res /\
       trace_of (handle env store' up rq') = trace_of (handle env current up rq)).
Proof.
  intros current Hroute Hres Hlist.
  destruct (selector_rendered env current up rq res entries Hroute Hres Hlist)
    as (user & botGuilds & Huser & _ & Hentries).
  exists user. split; [exact Huser |]. split.
  - apply js_map_inv, Forall2_sources in Hentries.
    eapply List.Forall_impl; [| exact Hentries].
    intros e (g & Hg & Hge). unfold with_manage_bit in Hg.
    apply List.filter_In in Hg as [Hg Hbit].
    destruct (bitmask g) as [z |] eqn:Hz; [| discriminate].
    destruct (guild_entry_fields _ _ _ Hge) as [Hid Hname].
    exists g, z. auto.
  - intros store' rq' Hroute' Hsame.
    destruct (handle_dispatch env current up rq) as (Htrace & Hrun & _);
      [now rewrite Hroute |].
    destruct (handle_dispatch env store' up rq') as (Htrace' & Hrun' & _);
      [now rewrite Hroute' |].
    rewrite Htrace', Hrun', Htrace, <- Hres, Hrun, Hroute, Hroute'.
    rewrite (dashboard_reads_user_only env (express_req (identity store' rq') rq')
               (express_req (identity current rq) rq)) by exact Hsame.
    now split.
Qed.

(** ** No handler rejects *)

Lemma dispatch_responds env r req up :
  Req.guildId req = route_guildId r ->
  exists res, snd (dispatch env r req up) = inr res.
Proof.
  intros Hguild. destruct (protected r) eqn:Hprot.
  - destruct (Req.user req) as [user |] eqn:Huser.
    + destruct (protected_responds env r req user up Hprot Huser Hguild) as (res & H & _).
      eauto.
    + rewrite protected_anonymous by assumption. eauto.
  - destruct r; try discriminate Hprot; cbn [dispatch]; unfold get_root;
      try destruct (req_isAuthenticated req); eauto.
Qed.

(** No handler leaves its promise rejected: the outcome of a request always
    carries a response. *)
Lemma handle_always_responds env store up rq :
  exists res, response_of (handle env store up rq) = inr res.
Proof.
  destruct (auth_route (Http.route rq)) eqn:Hauth.
  - unfold handle, response_of.
    destruct (load_session store (Http.cookie rq) (Http.now rq)) as [store' loaded].
    destruct (Http.route rq) as [| outcome | outcome | | | | | | | | | | | | | | | | |];
      try discriminate Hauth;
      try (unfold authenticate, error_handler;
           destruct outcome as [authorize_url | profile | | name];
           try destruct (_ || _); cbn; eauto).
    unfold get_auth_logout, req_logout. destruct loaded as [[sid s] |]; eauto.
  - destruct (handle_dispatch env store up rq Hauth) as (_ & -> & _).
    now apply dispatch_responds.
Qed.

(** ** [BigInt] on the permission strings of Discord *)

Example BigInt_decimal : Js.BigInt (Js.Str "2147483647") = inr 2147483647.
Proof. reflexivity. Qed.

Example BigInt_beyond_2_53 :
  Js.BigInt (Js.Str "0x00000000000000000020000000000028") = inr (2 ^ 53 + 0x28).
Proof. reflexivity. Qed.

Example BigInt_blank : Js.BigInt (Js.Str "  ") = inr 0.
Proof. reflexivity. Qed.

Example BigInt_not_a_literal : Js.BigInt (Js.Str "0x20n") = inl Js.SyntaxError.
Proof. reflexivity. Qed.

Example BigInt_fraction : Js.BigInt (Js.Num (Js.Finite 5 (-1))) = inl Js.RangeError.
Proof. reflexivity. Qed.

Example BigInt_missing : Js.BigInt Js.Undefined = inl Js.TypeError.
Proof. reflexivity. Qed.

Example manage_bit_beyond_2_53 : has_manage_server Scenario.guildD = inr true.
Proof. reflexivity. Qed.

(** A [guilds] value without an [includes] method fails the selector page. *)
Example selector_fails_on_unusable_bot_guilds :
  response_of
    (handle ∅ Scenario.store
       (fun _ => inr (Js.Obj [("guilds", Js.Prim (Js.Num (Js.Finite 5 0)))]))
       (Scenario.request (Some "s1") 1000 GET_dashboard)) =
    inr (Res.send 500 "Error loading dashboard").
Proof. vm_compute. reflexivity. Qed.

(** One membership without a bitmask fails the whole selector page. *)
Example selector_fails_on_missing_permissions :
  response_of
    (handle ∅
       {["s1" := {| Session.user :=
                      Some {| Profile.id := "1"; Profile.username := "bob";
                              Profile.avatar := None;
                              Profile.guilds :=
                                Some [Scenario.guildA;
                                      {| Guild.id := "E"; Guild.name := "Echo";
                                         Guild.icon := None;
                                         Guild.permissions := Js.Undefined |}] |};
                    Session.expires := 604800000 |}]}
       Scenario.bot (Scenario.request (Some "s1") 1000 GET_dashboard)) =
    inr (Res.send 500 "Error loading dashboard").
Proof. vm_compute. reflexivity. Qed.
(** * The statements on the scenario *)

Lemma selector_lists_guilds_with_bit_0x20_witness :
  exists res entries,
    response_of (handle ∅ Scenario.store Scenario.bot
                   (Scenario.request (Some "s1") 1000 GET_dashboard)) = inr res /\
    Res.status res = 200 /\
    selector_list res = Some entries /\
    In "A" (List.map GuildEntry.id entries) /\
    ~ In "B" (List.map GuildEntry.id entries) /\
    In "D" (List.map GuildEntry.id entries).
Proof.
  assert (HA : denotes (Guild.permissions Scenario.guildA) 0x20).
  { apply (denotes_hexadecimal (Scenario.hex_digits "20")). vm_compute. discriminate. }
  assert (HB : denotes (Guild.permissions Scenario.guildB) 0).
  { apply (denotes_hexadecimal (Scenario.hex_digits "0")). vm_compute. discriminate. }
  assert (HD : denotes (Guild.permissions Scenario.guildD) 0x20000000000028).
  { apply (denotes_hexadecimal (Scenario.hex_digits "00000000000000000020000000000028")).
    vm_compute. discriminate. }
  destruct (selector_lists_guilds_with_bit_0x20 ∅ Scenario.store Scenario.bot
              (Scenario.request (Some "s1") 1000 GET_dashboard) Scenario.alice)
    as (res & entries & Hres & Hstatus & Hlist & _ & Hiff).
  - reflexivity.
  - vm_compute. reflexivity.
  - repeat constructor; eexists; eassumption.
  - vm_compute. reflexivity.
  - assert (Hnodup : NoDup (List.map Guild.id (userGuilds Scenario.alice))).
    { apply (bool_decide_unpack _). vm_compute. reflexivity. }
    exists res, entries. do 3 (split; [assumption |]). split; [| split].
    + apply (Hiff Hnodup Scenario.guildA 0x20); [simpl; auto | exact HA | reflexivity].
    + intros Hin. apply (Hiff Hnodup Scenario.guildB 0) in Hin; [discriminate Hin | | exact HB].
      simpl. auto.
    + apply (Hiff Hnodup Scenario.guildD 0x20000000000028);
        [simpl; auto | exact HD | reflexivity].
Defined.

Lemma guild_pages_allow_members_witness :
  exists res,
    response_of (handle ∅ Scenario.store Scenario.bot
                   (Scenario.request (Some "s1") 1000 (GET_dashboard_guild "B"))) = inr res /\
    Res.status res = 200 /\
    rendered_guild res = Some ("dashboard", Scenario.beta_info).
Proof.
  destruct (guild_pages_allow_members ∅ Scenario.store Scenario.bot
              (Scenario.request (Some "s1") 1000 (GET_dashboard_guild "B"))
              Scenario.alice Overview "B") as (_ & Hpage & _).
  - reflexivity.
  - vm_compute. reflexivity.
  - apply Hpage.
    + simpl. auto.
    + vm_compute. reflexivity.
Defined.

Lemma non_member_gets_403_without_upstream_call_witness :
  response_of (handle ∅ Scenario.store Scenario.bot
                 (Scenario.request (Some "s1") 1000 (GET_dashboard_guild "C"))) =
    inr {| Res.status := 403; Res.body := Res.Text "Access denied" |} /\
  trace_of (handle ∅ Scenario.store Scenario.bot
              (Scenario.request (Some "s1") 1000 (GET_dashboard_guild "C"))) = [] /\
  http_requests
    (trace_of (handle ∅ Scenario.store Scenario.bot
                 (Scenario.request (Some "s1") 1000 (GET_dashboard_guild "C")))) = [].
Proof.
  apply (non_member_gets_403_without_upstream_call ∅ Scenario.store Scenario.bot
           (Scenario.request (Some "s1") 1000 (GET_dashboard_guild "C"))
           Scenario.alice "C").
  - reflexivity.
  - vm_compute. reflexivity.
  - simpl. intros [H | [H | [H | []]]]; discriminate H.
Defined.

Lemma protected_routes_redirect_without_identity_witness :
  response_of (handle ∅ Scenario.store Scenario.bot
                 (Scenario.request (Some "s1") 700000000 GET_api_analytics)) =
    inr (Res.redirect "/") /\
  trace_of (handle ∅ Scenario.store Scenario.bot
              (Scenario.request (Some "s1") 700000000 GET_api_analytics)) = [].
Proof.
  apply (protected_routes_redirect_without_identity ∅ Scenario.store Scenario.bot
           (Scenario.request (Some "s1") 700000000 GET_api_analytics)).
  - reflexivity.
  - unfold anonymous. vm_compute. left. discriminate.
Defined.

Lemma bot_guilds_failure_degrades_selector_witness :
  exists res entries,
    response_of (handle ∅ Scenario.store Scenario.down
                   (Scenario.request (Some "s1") 1000 GET_dashboard)) = inr res /\
    Res.status res = 200 /\
    selector_list res = Some entries /\
    Forall (fun e => GuildEntry.botInGuild e = false) entries /\
    List.map GuildEntry.id entries = ["A"; "D"].
Proof.
  destruct (bot_guilds_failure_degrades_selector ∅ Scenario.store Scenario.down
              (Scenario.request (Some "s1") 1000 GET_dashboard) Scenario.alice
              "connect ECONNREFUSED")
    as (res & entries & Hres & Hstatus & Hlist & Hfalse & Hids & _).
  - reflexivity.
  - vm_compute. reflexivity.
  - reflexivity.
  - vm_compute. left. reflexivity.
  - exists res, entries. repeat split; assumption.
Defined.

Lemma proxy_forwards_upstream_json_as_serialised_witness :
  response_of (handle ∅ Scenario.store Scenario.bot
                 (Scenario.request (Some "s1") 1000 (GET_api_guilds_channels "Z"))) =
    inr (Res.json 200 Scenario.channels) /\
  delivered true false (Res.json 200 Scenario.channels) = Res.json 200 Scenario.channels /\
  delivered true true (Res.json 200 Scenario.channels) = not_modified.
Proof.
  destruct (proxy_forwards_upstream_json_as_serialised ∅ Scenario.store Scenario.bot
              (Scenario.request (Some "s1") 1000 (GET_api_guilds_channels "Z"))
              Scenario.alice) as [_ Hforward].
  - reflexivity.
  - vm_compute. reflexivity.
  - destruct (Hforward Scenario.channels) as (Hres & _ & Hsent); [vm_compute; reflexivity |].
    split; [exact Hres |]. split.
    + apply (Hsent false); reflexivity.
    + apply (Hsent true); reflexivity.
Defined.

Lemma proxy_failure_is_generic_500_witness :
  response_of (handle ∅ Scenario.store Scenario.down
                 (Scenario.request (Some "s1") 1000 POST_api_aichat_save)) =
    inr {| Res.status := 500;
           Res.body := Res.Json
             (Js.Obj [("error", Js.Prim (Js.Str "Failed to save config"))]) |}.
Proof.
  apply (proxy_failure_is_generic_500 ∅ Scenario.store Scenario.down
           (Scenario.request (Some "s1") 1000 POST_api_aichat_save)
           Scenario.alice "connect ECONNREFUSED").
  - reflexivity.
  - vm_compute. reflexivity.
  - reflexivity.
Defined.

Lemma selector_entries_are_current_manageable_memberships_witness :
  exists user,
    identity
      (fst (serve ∅ ∅ [(Scenario.bot,
                         Scenario.request None 0 (GET_auth_callback (AuthSuccess Scenario.alice)))]))
      (Scenario.request (Some "s2") 1000 GET_dashboard) = Some user /\
    Forall (fun e => exists g z,
              In g (userGuilds user) /\
              GuildEntry.id e = Guild.id g /\
              GuildEntry.name e = Guild.name g /\
              bitmask g = Some z /\
              bit_0x20_set z = true) (Scenario.entries true).
Proof.
  destruct (selector_entries_are_current_manageable_memberships ∅ ∅
              [(Scenario.bot,
                Scenario.request None 0 (GET_auth_callback (AuthSuccess Scenario.alice)))]
              Scenario.bot (Scenario.request (Some "s2") 1000 GET_dashboard)
              (selector_page ∅ (Some Scenario.alice) (Scenario.entries true))
              (Scenario.entries true))
    as (user & Huser & Hall & _).
  - reflexivity.
  - vm_compute. reflexivity.
  - reflexivity.
  - exists user. split; assumption.
Defined.

Lemma logout_returns_client_to_anonymous_witness :
  response_of
    (handle ∅
       (fst (serve ∅
               (store_of (handle ∅ Scenario.store Scenario.bot
                            (Scenario.request (Some "s1") 1000 GET_auth_logout)))
               [(Scenario.bot, Scenario.request (Some "s2") 1500 GET_root)]))
       Scenario.bot (Scenario.request (Some "s2") 2000 GET_dashboard)) =
    inr (Res.redirect "/").
Proof.
  destruct (logout_returns_client_to_anonymous ∅ Scenario.store Scenario.bot
              (Scenario.request (Some "s1") 1000 GET_auth_logout))
    as (store' & Hhandle & _ & _ & _ & Hlater).
  - reflexivity.
  - rewrite Hhandle.
    apply (Hlater [(Scenario.bot, Scenario.request (Some "s2") 1500 GET_root)]
             Scenario.bot (Scenario.request (Some "s2") 2000 GET_dashboard)).
    + constructor; [split; [reflexivity | intros sid _; reflexivity] | constructor].
    + left. reflexivity.
    + reflexivity.
Defined.

Lemma proxy_routes_skip_guild_authorization_witness :
  ~ In "Z" (List.map Guild.id (userGuilds Scenario.alice)) /\
  http_requests
    (trace_of (handle ∅ Scenario.store Scenario.bot
                 (Scenario.request (Some "s1") 1000 (GET_api_guilds_channels "Z")))) =
    [bot_request ∅ "/api/guilds/Z/channels" "GET" None] /\
  response_of (handle ∅ Scenario.store Scenario.bot
                 (Scenario.request (Some "s1") 1000 (GET_api_guilds_channels "Z"))) =
    inr (Res.json 200 Scenario.channels).
Proof.
  destruct (proxy_routes_skip_guild_authorization ∅ Scenario.store Scenario.bot
              (Scenario.request (Some "s1") 1000 (GET_api_guilds_channels "Z"))
              Scenario.alice) as (Hcalls & _ & Hforward & _).
  - reflexivity.
  - vm_compute. reflexivity.
  - split; [| split].
    + simpl. intros [H | [H | [H | []]]]; discriminate H.
    + exact Hcalls.
    + apply Hforward. vm_compute. reflexivity.
Defined.

(** * Further properties of the server *)

(** ** Decimal permissions *)

(** X1. A membership whose [permissions] is the decimal numeral of a natural
    number [n], the form in which Discord sends a bitmask, has the bitmask
    [n], and the filter of [GET /dashboard] keeps it exactly when bit 5 of
    [n] is set. *)
Theorem decimal_permissions_manage_bit (g : Guild.t) (n : N) :
  Guild.permissions g = Js.Str (decimal n) ->
  bitmask g = Some (Z.of_N n) /\
  has_manage_server g = inr (N.testbit n 5).
Proof.
  intros Hperm.
  assert (Hmask : bitmask g = Some (Z.of_N n)).
  { unfold bitmask, decimal in *. rewrite Hperm. cbn [Js.BigInt].
    now rewrite StringToBigInt_numeral, DecimalN.Unsigned.of_to. }
  split; [exact Hmask |].
  rewrite (has_manage_server_bitmask g _ Hmask). unfold bit_0x20_set.
  f_equal. exact (Z.testbit_of_N n 5).
Qed.

(** ** Responses and upstream calls of every route *)

(** Case analysis on what a protected route does for an authenticated
    request: the goal must mention [dispatch env r req up]. *)
Ltac protected_cases env r req user up Hprot Huser Hguild :=
  let Hapi := fresh "Hapi" in
  destruct (api_route r) eqn:Hapi;
  [ rewrite (api_run env r req user up Hapi Huser Hguild); cbv zeta;
    destruct (up _) eqn:?
  | destruct r; try discriminate Hprot; try discriminate Hapi; cbn [dispatch];
    rewrite (isAuthenticated_user _ user) by assumption;
    [ rewrite (get_dashboard_run env _ user) by assumption;
      destruct (managedGuilds _) eqn:?;
      [| rewrite fetch_botGuilds_run;
         destruct (up _) eqn:?;
         [| destruct (Js.get_guilds _) eqn:?];
         destruct (js_map _ _) eqn:? ]
    | change (get_dashboard_guild env) with (page_handler env Overview);
      rewrite (page_handler_run env _ _ user) by assumption; cbv zeta;
      destruct (js_find _ _) eqn:?; [destruct (up _) eqn:? |]
    | change (get_dashboard_aichat env) with (page_handler env AiChat);
      rewrite (page_handler_run env _ _ user) by assumption; cbv zeta;
      destruct (js_find _ _) eqn:?; [destruct (up _) eqn:? |]
    | change (get_dashboard_suggestions env) with (page_handler env Suggestions);
      rewrite (page_handler_run env _ _ user) by assumption; cbv zeta;
      destruct (js_find _ _) eqn:?; [destruct (up _) eqn:? |] ] ].

Lemma dispatch_status env r req up :
  Req.guildId req = route_guildId r ->
  exists res, snd (dispatch env r req up) = inr res /\ In (Res.status res) known_statuses.
Proof.
  intros Hguild. unfold known_statuses. destruct (protected r) eqn:Hprot.
  - destruct (Req.user req) as [user |] eqn:Huser.
    + protected_cases env r req user up Hprot Huser Hguild;
        cbn [snd]; eexists; (split; [reflexivity | cbn; auto 10]).
    + rewrite protected_anonymous by assumption.
      eexists; (split; [reflexivity | cbn; auto 10]).
  - destruct r; try discriminate Hprot; cbn [dispatch]; unfold get_root;
      try destruct (req_isAuthenticated req);
      eexists; (split; [reflexivity | cbn; auto 10]).
Qed.

Lemma delivered_status (get fresh : bool) (res : Res.t) :
  Res.status (delivered get fresh res) = 304 \/
  Res.status (delivered get fresh res) = Res.status res.
Proof.
  unfold delivered. destruct (_ && _); [now left | right].
  destruct (Res.body res) as [path | view locals | text | [[| | | |] | |]]; reflexivity.
Qed.

(** X2. A request that reaches the router with its session loaded, and
    whose call to the bot API settles (it resolves or is rejected), is
    answered: whatever the profile holds and whatever the bot API answers,
    no handler leaves its promise rejected; the status that the handler sets
    is one of 200, 302, 401, 403, 404 and 500, and the status that Express
    sends is one of these or 304, for a conditional [GET] whose validators
    match. *)
Theorem settled_requests_are_answered env store up rq :
  exists res,
    response_of (handle env store up rq) = inr res /\
    In (Res.status res) known_statuses /\
    forall get fresh, In (Res.status (delivered get fresh res)) (304 :: known_statuses).
Proof.
  assert (Hset : exists res,
             response_of (handle env store up rq) = inr res /\
             In (Res.status res) known_statuses).
  { destruct (auth_route (Http.route rq)) eqn:Hauth.
    - unfold handle, response_of, known_statuses.
      destruct (load_session store (Http.cookie rq) (Http.now rq)) as [store' loaded].
      destruct (Http.route rq) as [| outcome | outcome | | | | | | | | | | | | | | | | |];
        try discriminate Hauth;
        try (unfold authenticate, error_handler;
             destruct outcome as [authorize_url | profile | | name];
             try destruct (_ || _); cbn;
             eexists; (split; [reflexivity | cbn; auto 10])).
      unfold get_auth_logout, req_logout.
      eexists; (split; [reflexivity | cbn; auto 10]).
    - destruct (handle_dispatch env store up rq Hauth) as (_ & -> & _).
      now apply dispatch_status. }
  destruct Hset as (res & Hres & Hstatus). exists res.
  split; [exact Hres |]. split; [exact Hstatus |].
  intros get fresh. destruct (delivered_status get fresh res) as [-> | ->];
    [now left | now right].
Qed.

Lemma get_is_bot_call env endpoint : bot_call env (bot_request env endpoint "GET" None).
Proof. do 3 eexists. split; [reflexivity | auto]. Qed.

Lemma post_is_bot_call env endpoint data :
  bot_call env (bot_request env endpoint "POST" data).
Proof. do 3 eexists. split; [reflexivity | auto]. Qed.

Lemma api_request_is_bot_call env r body : bot_call env (api_request env r body).
Proof.
  unfold api_request.
  destruct (api_posts r); [apply post_is_bot_call | apply get_is_bot_call].
Qed.

Lemma dispatch_requests env r req up :
  Req.guildId req = route_guildId r ->
  let requests := http_requests (fst (dispatch env r req up)) in
  (requests = [] \/ exists config, requests = [config] /\ bot_call env config) /\
  (protected r = false \/ Req.user req = None -> requests = []).
Proof.
  intros Hguild requests. subst requests.
  pose proof (get_is_bot_call env) as Hget.
  destruct (protected r) eqn:Hprot.
  - destruct (Req.user req) as [user |] eqn:Huser.
    + split; [| intros [H | H]; discriminate H].
      protected_cases env r req user up Hprot Huser Hguild; cbn;
        solve [ now left
              | right; eexists; split; [reflexivity |];
                (apply api_request_is_bot_call || apply Hget) ].
    + rewrite protected_anonymous by assumption. cbn. auto.
  - assert (H : http_requests (fst (dispatch env r req up)) = []).
    { destruct r; try discriminate Hprot; cbn [dispatch]; unfold get_root;
        try destruct (req_isAuthenticated req); reflexivity. }
    rewrite H. auto.
Qed.

(** X3. A request causes at most one call to the bot API; such a call goes
    to the configured base URL with the bearer credential and the JSON
    content type, and is a [GET] without data or a [POST].  Routes outside
    the auth gate, and requests without identity, cause none. *)
Theorem upstream_calls_are_single_and_authorized env store up rq :
  let requests := http_requests (trace_of (handle env store up rq)) in
  (requests = [] \/ exists config, requests = [config] /\ bot_call env config) /\
  (protected (Http.route rq) = false \/ identity store rq = None -> requests = []).
Proof.
  intros requests. subst requests.
  destruct (auth_route (Http.route rq)) eqn:Hauth.
  - assert (H : http_requests (trace_of (handle env store up rq)) = []).
    { unfold handle, trace_of.
      destruct (load_session store (Http.cookie rq) (Http.now rq)) as [store' loaded].
      destruct (Http.route rq) as [| outcome | outcome | | | | | | | | | | | | | | | | |];
        try discriminate Hauth;
        try (unfold authenticate, error_handler;
             destruct outcome as [authorize_url | profile | | name];
             try destruct (_ || _); reflexivity).
      unfold get_auth_logout, req_logout. now destruct loaded as [[sid s] |]. }
    rewrite H. auto.
  - destruct (handle_dispatch env store up rq Hauth) as (-> & _ & _).
    now apply dispatch_requests.
Qed.

Lemma http_requests_app (t t' : list Event) :
  http_requests (t ++ t') = (http_requests t ++ http_requests t')%list.
Proof.
  induction t as [| [config | args] t IH]; cbn; [reflexivity | now rewrite IH | exact IH].
Qed.

Lemma fetch_botGuilds_same_answers env up up' :
  same_answers up up' ->
  snd (fetch_botGuilds env up) = snd (fetch_botGuilds env up') /\
  http_requests (fst (fetch_botGuilds env up)) =
    http_requests (fst (fetch_botGuilds env up')).
Proof.
  intros Hsame. rewrite !fetch_botGuilds_run.
  specialize (Hsame (bot_guilds_request env)).
  destruct (up _) as [m | d], (up' _) as [m' | d']; try contradiction; [now split |].
  subst d'. now destruct (Js.get_guilds d).
Qed.

Lemma dispatch_same_answers env r req up up' :
  same_answers up up' ->
  Req.guildId req = route_guildId r ->
  snd (dispatch env r req up) = snd (dispatch env r req up') /\
  http_requests (fst (dispatch env r req up)) =
    http_requests (fst (dispatch env r req up')).
Proof.
  intros Hsame Hguild. destruct (protected r) eqn:Hprot.
  2: { destruct r; try discriminate Hprot; cbn [dispatch]; unfold get_root;
         try destruct (req_isAuthenticated req); now split. }
  destruct (Req.user req) as [user |] eqn:Huser.
  2: { rewrite protected_anonymous by assumption. now split. }
  destruct (api_route r) eqn:Hapi.
  { rewrite !(api_run env r req user _ Hapi Huser Hguild). cbv zeta.
    specialize (Hsame (api_request env r (Req.body req))).
    destruct (up _) as [m | d], (up' _) as [m' | d']; try contradiction;
      [now split | now subst]. }
  assert (Hpage : forall p,
             snd (page_handler env p req up) = snd (page_handler env p req up') /\
             http_requests (fst (page_handler env p req up)) =
               http_requests (fst (page_handler env p req up'))).
  { intros p. rewrite !(page_handler_run env p req user) by assumption. cbv zeta.
    specialize (Hsame (guild_info_request env (Req.guildId req))).
    destruct (js_find _ _); [| now split].
    destruct (up _) as [m | d], (up' _) as [m' | d']; try contradiction;
      [now split | now subst]. }
  destruct r; try discriminate Hprot; try discriminate Hapi; cbn [dispatch];
    rewrite !(isAuthenticated_user _ user) by assumption;
    [| apply (Hpage Overview) | apply (Hpage AiChat) | apply (Hpage Suggestions)].
  rewrite !(get_dashboard_run env _ user) by assumption.
  destruct (managedGuilds _) as [e | managed]; [now split |].
  destruct (fetch_botGuilds_same_answers env up up' Hsame) as [Hsnd Hfst].
  destruct (fetch_botGuilds env up) as [t f], (fetch_botGuilds env up') as [t' f'].
  cbn [fst snd] in Hsnd, Hfst. subst f'.
  destruct f as [e | botGuilds]; cbn [fst snd].
  - rewrite !http_requests_app. cbn. now rewrite Hfst.
  - destruct (js_map _ _); cbn [fst snd]; [| now split].
    rewrite !http_requests_app. cbn. now rewrite Hfst.
Qed.

(** X4. The message of an upstream failure never reaches the client: two
    bot APIs that answer alike except for the messages of their failures
    produce the same response, the same store and the same upstream calls
    on every request. *)
Theorem upstream_failure_detail_stays_on_server env store up up' rq :
  same_answers up up' ->
  response_of (handle env store up rq) = response_of (handle env store up' rq) /\
  store_of (handle env store up rq) = store_of (handle env store up' rq) /\
  http_requests (trace_of (handle env store up rq)) =
    http_requests (trace_of (handle env store up' rq)).
Proof.
  intros Hsame. destruct (auth_route (Http.route rq)) eqn:Hauth.
  - assert (H : handle env store up rq = handle env store up' rq).
    { unfold handle.
      destruct (load_session store (Http.cookie rq) (Http.now rq)) as [store' loaded].
      destruct (Http.route rq) as [| outcome | outcome | | | | | | | | | | | | | | | | |];
        try discriminate Hauth; try reflexivity;
        unfold authenticate; destruct outcome; reflexivity. }
    now rewrite H.
  - destruct (handle_dispatch env store up rq Hauth) as (-> & -> & ->).
    destruct (handle_dispatch env store up' rq Hauth) as (-> & -> & ->).
    destruct (dispatch_same_answers env (Http.route rq)
                (express_req (identity store rq) rq) up up' Hsame eq_refl) as [Hres Hreq].
    auto.
Qed.

(** X5. When the guild-info call of a guild-scoped page fails for a member,
    the page answers 500 with the fixed text of the page; the call was made
    once and the failure was logged by [callBotAPI] and by the handler. *)
Theorem guild_page_upstream_failure_is_500 env store up rq user page guildId message :
  Http.route rq = page_route page guildId ->
  identity store rq = Some user ->
  In guildId (List.map Guild.id (userGuilds user)) ->
  up (guild_info_request env guildId) = inl message ->
  response_of (handle env store up rq) =
    inr {| Res.status := 500; Res.body := Res.Text (page_error_text page) |} /\
  trace_of (handle env store up rq) =
    [HttpRequest (guild_info_request env guildId);
     api_error_line ("/api/guilds/" ++ guildId ++ "/info") (Js.AxiosError message);
     page_error_line page (Js.AxiosError message)].
Proof.
  intros Hroute Huser Hmember Hfail.
  pose proof (handle_page env store up rq user page guildId Hroute Huser) as Hrun.
  rewrite Hfail in Hrun.
  destruct (js_find _ _) eqn:Hfind.
  - now injection Hrun as -> ->.
  - apply js_find_guild in Hfind. contradiction.
Qed.

(** ** The life of a session *)

Lemma identity_some_inv store rq user :
  identity store rq = Some user ->
  exists sid s,
    Http.cookie rq = Some sid /\ store !! sid = Some s /\
    Http.now rq < Session.expires s /\ Session.user s = Some user /\
    load_session store (Http.cookie rq) (Http.now rq) = (store, Some (sid, s)).
Proof.
  unfold identity, load_session.
  destruct (Http.cookie rq) as [sid |]; [| discriminate].
  destruct (store !! sid) as [s |] eqn:Hs; [| discriminate].
  destruct (Z.leb_spec (Session.expires s) (Http.now rq)); [discriminate |].
  cbn. intros Huser. exists sid, s. auto.
Qed.

(** The store after a request outside [/auth] by an authenticated client:
    its session is touched. *)
Lemma store_after_request env store up rq user :
  auth_route (Http.route rq) = false ->
  identity store rq = Some user ->
  exists sid,
    Http.cookie rq = Some sid /\
    store_of (handle env store up rq) =
      <[sid := {| Session.user := Some user;
                  Session.expires := Http.now rq + maxAge |}]> store.
Proof.
  intros Hauth Huser.
  destruct (handle_dispatch env store up rq Hauth) as (_ & _ & ->).
  destruct (identity_some_inv store rq user Huser) as (sid & s & Hc & _ & _ & Hu & ->).
  exists sid. split; [assumption |]. cbn. now rewrite Hu.
Qed.

(** X8. The session rolls: after a request outside [/auth] by an
    authenticated client at time [now], the same cookie resolves to the
    same identity at every time before [now + maxAge] (seven days), and to
    none from then on. *)
Theorem session_rolls_forward env store up rq user rq' :
  auth_route (Http.route rq) = false ->
  identity store rq = Some user ->
  Http.cookie rq' = Http.cookie rq ->
  (Http.now rq' < Http.now rq + maxAge ->
   identity (store_of (handle env store up rq)) rq' = Some user) /\
  (Http.now rq + maxAge <= Http.now rq' ->
   identity (store_of (handle env store up rq)) rq' = None).
Proof.
  intros Hauth Huser Hcookie.
  destruct (store_after_request env store up rq user Hauth Huser) as (sid & Hc & ->).
  unfold identity, load_session. rewrite Hcookie, Hc, lookup_insert_eq.
  cbn [Session.expires]. split; intros Hnow.
  - destruct (Z.leb_spec (Http.now rq + maxAge) (Http.now rq')); [lia | reflexivity].
  - destruct (Z.leb_spec (Http.now rq + maxAge) (Http.now rq')); [reflexivity | lia].
Qed.

(** A client without identity has none after a request outside [/auth]. *)
Lemma anonymous_stays env store up rq rq' :
  auth_route (Http.route rq) = false ->
  identity store rq = None ->
  Http.cookie rq' = Http.cookie rq ->
  identity (store_of (handle env store up rq)) rq' = None.
Proof.
  intros Hauth Hnone Hcookie.
  destruct (handle_dispatch env store up rq Hauth) as (_ & _ & ->).
  unfold identity, load_session in *. rewrite Hcookie.
  destruct (Http.cookie rq) as [sid |]; [| reflexivity].
  destruct (store !! sid) as [s |] eqn:Hs.
  - destruct (Session.expires s <=? Http.now rq); cbn [snd session_user touch] in *.
    + now rewrite lookup_delete_eq.
    + rewrite lookup_insert_eq. cbn [Session.expires Session.user].
      now destruct (_ <=? _).
  - cbn [touch]. now rewrite Hs.
Qed.

(** X6. [GET /] calls nothing upstream; a client with an identity is sent to
    [/dashboard], a client without one gets the login page with [user]
    null. *)
Theorem landing_page_sends_members_to_dashboard env store up rq :
  Http.route rq = GET_root ->
  trace_of (handle env store up rq) = [] /\
  (forall user, identity store rq = Some user ->
     response_of (handle env store up rq) = inr (Res.redirect "/dashboard")) /\
  (identity store rq = None ->
     response_of (handle env store up rq) = inr (login_page env)).
Proof.
  intros Hroute.
  destruct (handle_dispatch env store up rq) as (-> & -> & _); [now rewrite Hroute |].
  rewrite Hroute. cbn [dispatch]. unfold get_root, req_isAuthenticated, express_req.
  cbn [Req.user]. destruct (identity store rq); repeat split; congruence.
Qed.

(** X7. The redirects between [/] and [/dashboard] do not loop: a client
    that [GET /] sends to [/dashboard] is answered there without a further
    redirect (within the life of its session), and a client that
    [GET /dashboard] sends to [/] gets the login page there. *)
Theorem landing_and_dashboard_do_not_loop env store up rq up' rq' :
  Http.cookie rq' = Http.cookie rq ->
  (Http.route rq = GET_root ->
   Http.route rq' = GET_dashboard ->
   Http.now rq' < Http.now rq + maxAge ->
   response_of (handle env store up rq) = inr (Res.redirect "/dashboard") ->
   exists res,
     response_of (handle env (store_of (handle env store up rq)) up' rq') = inr res /\
     is_redirect res = false) /\
  (Http.route rq = GET_dashboard ->
   Http.route rq' = GET_root ->
   response_of (handle env store up rq) = inr (Res.redirect "/") ->
   response_of (handle env (store_of (handle env store up rq)) up' rq') =
     inr (login_page env)).
Proof.
  intros Hcookie. split; [intros Hroute Hroute' Hnow Hres | intros Hroute Hroute' Hres].
  - assert (Hauth : auth_route (Http.route rq) = false) by now rewrite Hroute.
    destruct (identity store rq) as [user |] eqn:Huser.
    + assert (Hlater : identity (store_of (handle env store up rq)) rq' = Some user).
      { destruct (store_after_request env store up rq user Hauth Huser) as (sid & Hc & ->).
        unfold identity, load_session. rewrite Hcookie, Hc, lookup_insert_eq.
        cbn [Session.expires].
        destruct (Z.leb_spec (Http.now rq + maxAge) (Http.now rq')); [lia | reflexivity]. }
      destruct (handle_dispatch env (store_of (handle env store up rq)) up' rq')
        as (_ & -> & _); [now rewrite Hroute' |].
      rewrite Hlater.
      apply (protected_responds env _ _ user); [now rewrite Hroute' | reflexivity..].
    + destruct (handle_dispatch env store up rq Hauth) as (_ & Hrun & _).
      rewrite Hrun, Hroute, Huser in Hres. discriminate Hres.
  - assert (Hauth : auth_route (Http.route rq) = false) by now rewrite Hroute.
    assert (Hnone : identity store rq = None).
    { destruct (identity store rq) as [user |] eqn:Huser; [| reflexivity]. exfalso.
      destruct (handle_dispatch env store up rq Hauth) as (_ & Hrun & _).
      destruct (protected_responds env (Http.route rq) (express_req (Some user) rq)
                  user up) as (res & Hr & Hnot); [now rewrite Hroute | reflexivity..|].
      rewrite Hrun, Huser, Hr in Hres. injection Hres as ->. discriminate Hnot. }
    pose proof (anonymous_stays env store up rq rq' Hauth Hnone Hcookie) as Hlater.
    destruct (handle_dispatch env (store_of (handle env store up rq)) up' rq')
      as (_ & -> & _); [now rewrite Hroute' |].
    now rewrite Hroute', Hlater.
Qed.

(** X9. A successful OAuth callback answers with the redirect to
    [/dashboard] and stores the profile under the regenerated session id
    with a life of [maxAge]; the session of the cookie the request came
    with is gone, and the new cookie resolves to the profile. *)
Theorem login_establishes_session env store up rq profile :
  Http.route rq = GET_auth_callback (AuthSuccess profile) ->
  response_of (handle env store up rq) = inr (Res.redirect "/dashboard") /\
  trace_of (handle env store up rq) = [] /\
  store_of (handle env store up rq) !! Http.fresh_sid rq =
    Some {| Session.user := Some profile; Session.expires := Http.now rq + maxAge |} /\
  (forall sid, Http.cookie rq = Some sid -> sid <> Http.fresh_sid rq ->
     store_of (handle env store up rq) !! sid = None) /\
  (forall rq', Http.cookie rq' = Some (Http.fresh_sid rq) ->
     Http.now rq' < Http.now rq + maxAge ->
     identity (store_of (handle env store up rq)) rq' = Some profile).
Proof.
  intros Hroute. unfold handle, response_of, trace_of, store_of. rewrite Hroute.
  destruct (load_session store (Http.cookie rq) (Http.now rq)) as [store' loaded] eqn:Hload.
  cbn [authenticate ret fst snd]. unfold req_login.
  split; [reflexivity |]. split; [reflexivity |].
  split; [apply lookup_insert_eq |]. split.
  - intros sid Hcookie Hne. rewrite lookup_insert_ne by congruence.
    unfold load_session in Hload. rewrite Hcookie in Hload.
    destruct (store !! sid) as [s |] eqn:Hs.
    + destruct (Session.expires s <=? Http.now rq); injection Hload as <- <-;
        cbn; apply lookup_delete_eq.
    + now injection Hload as <- <-.
  - intros rq' Hcookie' Hnow. unfold identity, load_session.
    rewrite Hcookie', lookup_insert_eq. cbn [Session.expires].
    destruct (Z.leb_spec (Http.now rq + maxAge) (Http.now rq')); [lia | reflexivity].
Qed.

(** X10. Login followed by logout does not restore the store, but leaves
    no identity behind: for a client that had no session and a session id
    that was free, the store after the callback and the logout under the new
    cookie is the store before together with the user-less session that the
    logout regenerated; when that session's id was free as well, every
    request resolves to the identity it had before the login. *)
Theorem login_then_logout_leaves_userless_session env store up rq up' rq' profile :
  Http.route rq = GET_auth_callback (AuthSuccess profile) ->
  no_session store (Http.cookie rq) ->
  store !! Http.fresh_sid rq = None ->
  Http.cookie rq' = Some (Http.fresh_sid rq) ->
  Http.route rq' = GET_auth_logout ->
  store_of (handle env (store_of (handle env store up rq)) up' rq') =
    <[Http.fresh_sid rq' := logged_out_session rq']> store /\
  (store !! Http.fresh_sid rq' = None ->
   forall r,
     identity (store_of (handle env (store_of (handle env store up rq)) up' rq')) r =
       identity store r).
Proof.
  intros Hroute Hnone Hfresh Hcookie' Hroute'.
  assert (Hlogin : store_of (handle env store up rq) =
            <[Http.fresh_sid rq := {| Session.user := Some profile;
                                      Session.expires := Http.now rq + maxAge |}]> store).
  { unfold handle, store_of, load_session, no_session in *. rewrite Hroute.
    destruct (Http.cookie rq) as [sid |]; [rewrite Hnone |]; reflexivity. }
  assert (Hlogout : store_of (handle env (store_of (handle env store up rq)) up' rq') =
            <[Http.fresh_sid rq' := logged_out_session rq']> store).
  { rewrite Hlogin, (handle_logout env _ up' rq' Hroute'). unfold store_of, load_session.
    rewrite Hcookie', lookup_insert_eq. cbn [Session.expires fst].
    destruct (_ <=? _); cbn [fst snd session_destroy];
      rewrite delete_insert_eq, delete_id by assumption; reflexivity. }
  split; [exact Hlogout |]. intros Hfree r. rewrite Hlogout.
  unfold identity, load_session. destruct (Http.cookie r) as [sid |]; [| reflexivity].
  destruct (decide (sid = Http.fresh_sid rq')) as [-> | Hne].
  - rewrite lookup_insert_eq, Hfree. unfold logged_out_session. cbn [Session.expires].
    now destruct (_ <=? _).
  - rewrite lookup_insert_ne by congruence.
    destruct (store !! sid) as [s |]; [| reflexivity]. now destruct (_ <=? _).
Qed.

(** X11. The error handler on an OAuth error: the error is logged; for a
    [TokenError] or an [InternalOAuthError] the session of the client is
    destroyed and the client is sent to [/auth/login]; for any other error
    the answer is 500 with the fixed text and the client keeps its
    identity. *)
Theorem oauth_error_resets_session env store up rq name :
  Http.route rq = GET_auth_callback (AuthError name) \/
  Http.route rq = GET_auth_login (AuthError name) ->
  trace_of (handle env store up rq) =
    [ConsoleError [LStr "Dashboard Error:"; LError (Js.NamedError name)]] /\
  (name = "TokenError" \/ name = "InternalOAuthError" ->
   response_of (handle env store up rq) = inr (Res.redirect "/auth/login") /\
   no_session (store_of (handle env store up rq)) (Http.cookie rq)) /\
  (name <> "TokenError" -> name <> "InternalOAuthError" ->
   response_of (handle env store up rq) = inr (Res.send 500 "Internal Server Error") /\
   forall user, identity store rq = Some user ->
     identity (store_of (handle env store up rq)) rq = Some user).
Proof.
  intros Hroute.
  assert (Hhandle : handle env store up rq =
            let '(store', loaded) := load_session store (Http.cookie rq) (Http.now rq) in
            error_handler (Js.NamedError name) store' loaded (Http.now rq)).
  { unfold handle. destruct (load_session _ _ _) as [store' loaded].
    now destruct Hroute as [-> | ->]. }
  rewrite Hhandle. clear Hhandle. unfold error_handler. cbn [Js.name].
  split; [| split].
  - destruct (load_session _ _ _) as [store' loaded]. now destruct (_ || _).
  - intros Hname.
    assert (Hor : String.eqb name "TokenError" || String.eqb name "InternalOAuthError" = true).
    { destruct Hname as [-> | ->]; reflexivity. }
    rewrite Hor. unfold load_session, no_session.
    destruct (Http.cookie rq) as [sid |]; [| now split].
    destruct (store !! sid) as [s |] eqn:Hs; [| now split].
    destruct (_ <=? _); cbn; (split; [reflexivity | apply lookup_delete_eq]).
  - intros H1 H2.
    assert (Hor : String.eqb name "TokenError" || String.eqb name "InternalOAuthError" = false).
    { apply orb_false_intro; now apply String.eqb_neq. }
    rewrite Hor.
    split; [now destruct (load_session _ _ _) |].
    intros user Huser.
    destruct (identity_some_inv store rq user Huser) as (sid & s & Hc & _ & _ & Hu & ->).
    unfold store_of, identity, load_session. cbn [fst touch].
    rewrite Hc, lookup_insert_eq. cbn [Session.expires Session.user].
    destruct (Z.leb_spec (Http.now rq + maxAge) (Http.now rq));
      [unfold maxAge in *; lia | exact Hu].
Qed.

(** X12. A request leaves the sessions of other clients as they are: a
    session id other than the request's cookie keeps its stored session,
    unless the request stores a regenerated session (of a login or of a
    logout) under that very id. *)
Theorem other_sessions_are_untouched env store up rq sid :
  Http.cookie rq <> Some sid ->
  regenerates_as sid rq = false ->
  store_of (handle env store up rq) !! sid = store !! sid.
Proof.
  intros Hcookie Hregenerates.
  assert (Hload : fst (load_session store (Http.cookie rq) (Http.now rq)) !! sid =
                    store !! sid /\
                  forall sid0 s, snd (load_session store (Http.cookie rq) (Http.now rq)) =
                                   Some (sid0, s) -> sid0 <> sid).
  { unfold load_session. destruct (Http.cookie rq) as [sid0 |]; [| now split].
    destruct (store !! sid0) as [s0 |]; [| now split].
    destruct (_ <=? _); cbn [fst snd].
    - split; [| discriminate]. apply lookup_delete_ne. congruence.
    - split; [reflexivity |]. intros ? ? [= <- <-]. congruence. }
  destruct Hload as [Hstore Hloaded]. rewrite <- Hstore. unfold handle.
  destruct (load_session store (Http.cookie rq) (Http.now rq)) as [store' loaded].
  cbn [fst snd] in *. clear Hstore.
  assert (Htouch : touch store' loaded (Http.now rq) !! sid = store' !! sid).
  { unfold touch. destruct loaded as [[sid0 s] |]; [| reflexivity].
    apply lookup_insert_ne. now apply (Hloaded sid0 s). }
  assert (Hdestroy : session_destroy store' loaded !! sid = store' !! sid).
  { unfold session_destroy. destruct loaded as [[sid0 s] |]; [| reflexivity].
    apply lookup_delete_ne. now apply (Hloaded sid0 s). }
  assert (Hauth : forall outcome redirect next,
             match outcome with
             | AuthSuccess _ => Http.fresh_sid rq <> sid
             | _ => True
             end ->
             store_of (authenticate outcome redirect next store' loaded rq up) !! sid =
               store' !! sid).
  { intros outcome redirect next Hfresh. unfold authenticate, store_of, error_handler.
    destruct outcome as [authorize_url | profile | | name]; cbn [fst]; try exact Htouch.
    - destruct (next _ up). cbn [fst]. unfold req_login.
      rewrite lookup_insert_ne by assumption. exact Hdestroy.
    - now destruct (_ || _). }
  unfold regenerates_as in Hregenerates.
  destruct (Http.route rq) eqn:Hroute;
    try (apply Hauth; destruct outcome; try exact I; now apply String.eqb_neq);
    try (match goal with
         | |- context [dispatch env ?r ?q up] => destruct (dispatch env r q up)
         end; exact Htouch).
  unfold get_auth_logout, req_logout, store_of, save_regenerated. cbn [fst snd].
  rewrite lookup_insert_ne by now apply String.eqb_neq. exact Hdestroy.
Qed.

(** Where the users of a store come from: after [authenticate], a stored
    user was stored before or is the profile that passport accepted. *)
Lemma authenticate_user_origin (Q : string -> Profile.t -> Prop)
    outcome failureRedirect next store loaded rq up :
  (forall sid user, holds_user store sid user -> Q sid user) ->
  (forall sid s user, loaded = Some (sid, s) -> Session.user s = Some user -> Q sid user) ->
  (forall profile, outcome = AuthSuccess profile -> Q (Http.fresh_sid rq) profile) ->
  forall sid user,
    holds_user (store_of (authenticate outcome failureRedirect next store loaded rq up))
               sid user ->
    Q sid user.
Proof.
  intros Hstore Hloaded Hsuccess sid user.
  assert (Htouch : holds_user (touch store loaded (Http.now rq)) sid user -> Q sid user).
  { unfold touch. destruct loaded as [[sid0 s0] |]; [| apply Hstore].
    intros (s & Hs & Hu). apply lookup_insert_Some in Hs as [[<- <-] | [_ Hs]].
    - exact (Hloaded sid0 s0 user eq_refl Hu).
    - apply Hstore. now exists s. }
  assert (Hdestroy : holds_user (session_destroy store loaded) sid user -> Q sid user).
  { unfold session_destroy. destruct loaded as [[sid0 s0] |]; [| apply Hstore].
    intros (s & Hs & Hu). apply lookup_delete_Some in Hs as [_ Hs].
    apply Hstore. now exists s. }
  unfold authenticate, store_of, error_handler.
  destruct outcome as [authorize_url | profile | | name]; cbn [fst]; try exact Htouch.
  - destruct (next _ up) as [trace response]. cbn [fst]. unfold req_login.
    intros (s & Hs & Hu). apply lookup_insert_Some in Hs as [[<- <-] | [_ Hs]].
    + cbn [Session.user] in Hu. injection Hu as <-. now apply Hsuccess.
    + apply Hdestroy. now exists s.
  - now destruct (_ || _).
Qed.

(** After one request, a stored user was stored before or was accepted by
    passport on that request. *)
Lemma handle_user_origin env store up rq sid user :
  holds_user (store_of (handle env store up rq)) sid user ->
  holds_user store sid user \/ authenticates sid user rq.
Proof.
  assert (Hload : (forall sid user,
                     holds_user (fst (load_session store (Http.cookie rq) (Http.now rq)))
                                sid user -> holds_user store sid user) /\
                  forall sid s user,
                    snd (load_session store (Http.cookie rq) (Http.now rq)) = Some (sid, s) ->
                    Session.user s = Some user -> holds_user store sid user).
  { unfold load_session. destruct (Http.cookie rq) as [sid0 |]; [| now split].
    destruct (store !! sid0) as [s0 |] eqn:Hs0; [| now split].
    destruct (_ <=? _); cbn [fst snd].
    - split; [| discriminate]. intros sid1 user1 (s & Hs & Hu).
      apply lookup_delete_Some in Hs as [_ Hs]. now exists s.
    - split; [auto |]. intros sid1 s1 user1 [= <- <-] Hu. now exists s0. }
  destruct Hload as [Hstore Hloaded].
  destruct (Http.route rq) eqn:Hroute;
    try (rewrite (handle_logout env store up rq Hroute); unfold store_of; cbn [fst];
         intros (s & Hs & Hu); apply lookup_insert_Some in Hs as [[_ <-] | [_ Hs]];
         [discriminate Hu |]; left;
         unfold session_destroy in Hs;
         destruct (snd (load_session store (Http.cookie rq) (Http.now rq)))
           as [[sid0 s0] |];
         [apply lookup_delete_Some in Hs as [_ Hs] |]; apply Hstore; now exists s);
    unfold handle; rewrite Hroute;
    destruct (load_session store (Http.cookie rq) (Http.now rq)) as [store' loaded];
    cbn [fst snd] in Hstore, Hloaded;
    try (apply (authenticate_user_origin
                  (fun sid user => holds_user store sid user \/ authenticates sid user rq));
         [intros; left; now apply Hstore
         | intros sid1 s1 user1 H1 H2; left; exact (Hloaded sid1 s1 user1 H1 H2)
         | intros profile ->; right; unfold authenticates; rewrite Hroute; auto]);
    try (match goal with
         | |- context [dispatch env ?r ?q up] =>
             destruct (dispatch env r q up) as [trace response]
         end;
         unfold store_of, touch; cbn [fst];
         destruct loaded as [[sid0 s0] |]; [| intros H; left; now apply Hstore];
         intros (s & Hs & Hu); left;
         apply lookup_insert_Some in Hs as [[<- <-] | [_ Hs]];
         [exact (Hloaded sid0 s0 user eq_refl Hu) | apply Hstore; now exists s]).
Qed.

(** X13. Identities come from logins only: when a request resolves to an
    identity after any sequence of requests, the store held that user under
    the request's cookie before the sequence, or one request of the sequence
    was an authentication on which passport accepted that very profile and
    stored it under that session id.  In particular no request gives a
    client of the empty store an identity except a successful
    authentication. *)
Theorem identities_come_from_logins env store history rq user :
  identity (fst (serve env store history)) rq = Some user ->
  exists sid,
    Http.cookie rq = Some sid /\
    (holds_user store sid user \/
     Exists (fun '(_, r) => authenticates sid user r) history).
Proof.
  intros Huser.
  destruct (identity_some_inv _ rq user Huser) as (sid & s & Hcookie & Hs & _ & Hu & _).
  exists sid. split; [exact Hcookie |].
  assert (Hholds : holds_user (fst (serve env store history)) sid user) by now exists s.
  clear Huser Hs Hu Hcookie s. revert store Hholds.
  induction history as [| [up r] history IH]; intros store Hholds; [now left |].
  cbn [serve] in Hholds.
  pose proof (handle_user_origin env store up r sid user) as Hstep. unfold store_of in Hstep.
  destruct (handle env store up r) as [[store' trace] response]. cbn [fst] in Hstep.
  specialize (IH store').
  destruct (serve env store' history) as [final outcomes]. cbn [fst] in *.
  destruct (IH Hholds) as [Hbefore | Hlater].
  - destruct (Hstep Hbefore) as [Hstored | Hnow]; [now left |].
    right. now apply Exists_cons_hd.
  - right. now apply Exists_cons_tl.
Qed.

(** ** Edges of the selector *)

Lemma handle_dashboard env store up rq user :
  Http.route rq = GET_dashboard ->
  identity store rq = Some user ->
  (trace_of (handle env store up rq), response_of (handle env store up rq)) =
    get_dashboard env (express_req (Some user) rq) up.
Proof.
  intros Hroute Huser.
  destruct (handle_dispatch env store up rq) as (-> & -> & _); [now rewrite Hroute |].
  rewrite <- surjective_pairing, Hroute, Huser. cbn [dispatch].
  now rewrite (isAuthenticated_user _ user).
Qed.

(** X14. When no membership has the manage-server bit (or the profile came
    without guilds), [GET /dashboard] renders the selector with an empty
    list whatever the bot API answers, and still makes its one call. *)
Theorem selector_without_manageable_guilds env store up rq user :
  Http.route rq = GET_dashboard ->
  identity store rq = Some user ->
  Forall (fun g => is_Some (bitmask g)) (userGuilds user) ->
  with_manage_bit (userGuilds user) = [] ->
  response_of (handle env store up rq) = inr (selector_page env (Some user) []) /\
  http_requests (trace_of (handle env store up rq)) = [bot_guilds_request env].
Proof.
  intros Hroute Huser Hmasks Hnone.
  pose proof (handle_dashboard env store up rq user Hroute Huser) as Hrun.
  rewrite (get_dashboard_run env _ user) in Hrun by reflexivity.
  rewrite (managedGuilds_total _ Hmasks), Hnone in Hrun.
  destruct (fetch_botGuilds_returns env up) as (trace & botGuilds & Hfetch & Hcalls).
  rewrite Hfetch in Hrun. cbn [js_map] in Hrun. now injection Hrun as -> ->.
Qed.

(** X15. When some membership has no bitmask, [GET /dashboard] answers 500
    with the fixed text and logs the error, and no call to the bot API is
    made: the filter runs before the fetch. *)
Theorem selector_fails_before_any_call_on_bad_permissions env store up rq user :
  Http.route rq = GET_dashboard ->
  identity store rq = Some user ->
  ~ Forall (fun g => is_Some (bitmask g)) (userGuilds user) ->
  response_of (handle env store up rq) = inr (Res.send 500 "Error loading dashboard") /\
  http_requests (trace_of (handle env store up rq)) = [] /\
  exists e, trace_of (handle env store up rq) = [dashboard_error_line e].
Proof.
  intros Hroute Huser Hbad.
  pose proof (handle_dashboard env store up rq user Hroute Huser) as Hrun.
  rewrite (get_dashboard_run env _ user) in Hrun by reflexivity.
  destruct (managedGuilds (userGuilds user)) as [e | managed] eqn:Hmanaged.
  - injection Hrun as -> ->. eauto.
  - apply managedGuilds_inv in Hmanaged as [Hall _]. contradiction.
Qed.

Lemma existsb_same_value (items : list Js.value) (search : string) :
  existsb (Js.same_value_zero_str search) items = true <->
  In (Js.Prim (Js.Str search)) items.
Proof.
  rewrite existsb_exists. split.
  - intros (v & Hv & Hsame). destruct v as [[| | | | s] | |]; try discriminate Hsame.
    cbn in Hsame. apply String.eqb_eq in Hsame. now subst s.
  - intros Hin. eexists. split; [exact Hin |]. cbn. apply String.eqb_refl.
Qed.

(** X16. When the bot API names its guilds in an array, a selector entry has
    [botInGuild] set exactly when the array holds the guild id as a string;
    ids given as numbers never match. *)
Theorem bot_presence_is_exact_id_membership env store up rq user d items :
  Http.route rq = GET_dashboard ->
  identity store rq = Some user ->
  Forall (fun g => is_Some (bitmask g)) (userGuilds user) ->
  up (bot_guilds_request env) = inr d ->
  Js.get_guilds d = inr (Js.Arr items) ->
  exists entries,
    response_of (handle env store up rq) = inr (selector_page env (Some user) entries) /\
    List.map GuildEntry.id entries =
      List.map Guild.id (with_manage_bit (userGuilds user)) /\
    Forall (fun e => GuildEntry.botInGuild e = true <->
                     In (Js.Prim (Js.Str (GuildEntry.id e))) items) entries.
Proof.
  intros Hroute Huser Hmasks Hup Hguilds.
  pose proof (handle_dashboard env store up rq user Hroute Huser) as Hrun.
  rewrite (get_dashboard_run env _ user) in Hrun by reflexivity.
  rewrite (managedGuilds_total _ Hmasks), fetch_botGuilds_run, Hup, Hguilds in Hrun.
  change (Js.or_else (Js.Arr items) (Js.Arr [])) with (Js.Arr items) in Hrun.
  destruct (guild_entry_total (Js.Arr items) (with_manage_bit (userGuilds user)) eq_refl)
    as [entries Hentries].
  rewrite Hentries in Hrun. injection Hrun as _ ->.
  exists entries. split; [reflexivity |].
  split; [exact (guild_entry_ids _ _ _ Hentries) |].
  apply js_map_inv, Forall2_sources in Hentries.
  eapply List.Forall_impl; [| exact Hentries].
  intros e (g & _ & Hge). unfold guild_entry in Hge. cbn in Hge.
  injection Hge as <-. cbn [GuildEntry.botInGuild GuildEntry.id].
  apply existsb_same_value.
Qed.

(** ** What the views are given *)

Lemma dispatch_views env r req up :
  Req.guildId req = route_guildId r ->
  exists res, snd (dispatch env r req up) = inr res /\ view_has_common_locals env res.
Proof.
  intros Hguild. unfold view_has_common_locals. destruct (protected r) eqn:Hprot.
  - destruct (Req.user req) as [user |] eqn:Huser.
    + protected_cases env r req user up Hprot Huser Hguild;
        cbn [snd]; eexists; (split; [reflexivity | cbn; eauto]).
    + rewrite protected_anonymous by assumption.
      eexists; (split; [reflexivity | cbn; eauto]).
  - destruct r; try discriminate Hprot; cbn [dispatch]; unfold get_root;
      try destruct (req_isAuthenticated req);
      eexists; (split; [reflexivity | cbn; eauto]).
Qed.

(** X18. Every view that the server renders is given [botConfig], the
    configuration of the process, and [user]. *)
Theorem every_view_gets_botConfig_and_user env store up rq res view locals :
  response_of (handle env store up rq) = inr res ->
  Res.body res = Res.View view locals ->
  local "botConfig" locals = Some (LBotConfig (BOT_CONFIG env)) /\
  exists u, local "user" locals = Some (LUser u).
Proof.
  intros Hres Hbody.
  assert (H : exists res', response_of (handle env store up rq) = inr res' /\
                           view_has_common_locals env res').
  { destruct (auth_route (Http.route rq)) eqn:Hauth.
    - unfold handle, response_of, view_has_common_locals.
      destruct (load_session store (Http.cookie rq) (Http.now rq)) as [store' loaded].
      destruct (Http.route rq) as [| outcome | outcome | | | | | | | | | | | | | | | | |];
        try discriminate Hauth;
        try (unfold authenticate, error_handler;
             destruct outcome as [authorize_url | profile | | name];
             try destruct (_ || _); cbn;
             eexists; (split; [reflexivity | cbn; eauto])).
      unfold get_auth_logout, req_logout. destruct loaded as [[sid s] |];
        eexists; (split; [reflexivity | cbn; eauto]).
    - destruct (handle_dispatch env store up rq Hauth) as (_ & -> & _).
      now apply dispatch_views. }
  destruct H as (res' & Hres' & Hview). rewrite Hres in Hres'. injection Hres' as <-.
  unfold view_has_common_locals in Hview. now rewrite Hbody in Hview.
Qed.

(** ** A bot-guilds answer without a list *)

(** X17. A bot-guilds answer without a list ([null], or a body whose
    [guilds] is missing or falsy) still renders the selector, every entry
    with [botInGuild = false]; reading [guilds] of [null] is logged as a
    failed fetch, a missing list is not. *)
Theorem bot_guilds_answer_without_list env store up rq user d :
  Http.route rq = GET_dashboard ->
  identity store rq = Some user ->
  Forall (fun g => is_Some (bitmask g)) (userGuilds user) ->
  up (bot_guilds_request env) = inr d ->
  match Js.get_guilds d with
  | inl _ => True
  | inr listed => Js.truthy listed = false
  end ->
  exists entries,
    response_of (handle env store up rq) = inr (selector_page env (Some user) entries) /\
    Forall (fun e => GuildEntry.botInGuild e = false) entries /\
    List.map GuildEntry.id entries =
      List.map Guild.id (with_manage_bit (userGuilds user)) /\
    trace_of (handle env store up rq) =
      HttpRequest (bot_guilds_request env) ::
      match Js.get_guilds d with
      | inl e => [bot_guilds_failure_line e]
      | inr _ => []
      end.
Proof.
  intros Hroute Huser Hmasks Hup Hlist.
  pose proof (handle_dashboard env store up rq user Hroute Huser) as Hrun.
  rewrite (get_dashboard_run env _ user) in Hrun by reflexivity.
  rewrite (managedGuilds_total _ Hmasks), fetch_botGuilds_run, Hup in Hrun.
  destruct (js_map_no_bot_guilds (with_manage_bit (userGuilds user)))
    as (entries & Hentries & Hall).
  exists entries.
  assert (Hids := guild_entry_ids _ _ _ Hentries).
  destruct (Js.get_guilds d) as [e | listed].
  - rewrite Hentries in Hrun. now injection Hrun as -> ->.
  - unfold Js.or_else in Hrun. rewrite Hlist, Hentries in Hrun.
    now injection Hrun as -> ->.
Qed.

(** * The further properties on the cases *)

Lemma decimal_permissions_manage_bit_witness :
  bitmask Cases.guildP = Some 9007199254741032 /\
  has_manage_server Cases.guildP = inr true.
Proof.
  apply (decimal_permissions_manage_bit Cases.guildP 9007199254741032%N).
  vm_compute. reflexivity.
Defined.

Lemma upstream_failure_detail_stays_on_server_witness :
  response_of (handle ∅ Scenario.store Scenario.down
                 (Scenario.request (Some "s1") 1000 (GET_dashboard_guild "B"))) =
  response_of (handle ∅ Scenario.store Cases.hang_up
                 (Scenario.request (Some "s1") 1000 (GET_dashboard_guild "B"))).
Proof.
  apply (upstream_failure_detail_stays_on_server ∅ Scenario.store Scenario.down
           Cases.hang_up (Scenario.request (Some "s1") 1000 (GET_dashboard_guild "B"))).
  intros config. simpl. exact I.
Defined.

Lemma guild_page_upstream_failure_is_500_witness :
  response_of (handle ∅ Scenario.store Scenario.down
                 (Scenario.request (Some "s1") 1000 (GET_dashboard_aichat "B"))) =
    inr {| Res.status := 500; Res.body := Res.Text "Error loading AI Chat page" |}.
Proof.
  apply (guild_page_upstream_failure_is_500 ∅ Scenario.store Scenario.down
           (Scenario.request (Some "s1") 1000 (GET_dashboard_aichat "B"))
           Scenario.alice AiChat "B" "connect ECONNREFUSED").
  - reflexivity.
  - vm_compute. reflexivity.
  - simpl. auto.
  - reflexivity.
Defined.

Lemma landing_page_sends_members_to_dashboard_witness :
  response_of (handle ∅ Scenario.store Scenario.bot
                 (Scenario.request (Some "s1") 1000 GET_root)) =
    inr (Res.redirect "/dashboard") /\
  response_of (handle ∅ Scenario.store Scenario.bot
                 (Scenario.request None 1000 GET_root)) = inr (login_page ∅).
Proof.
  destruct (landing_page_sends_members_to_dashboard ∅ Scenario.store Scenario.bot
              (Scenario.request (Some "s1") 1000 GET_root)) as (_ & Hmember & _);
    [reflexivity |].
  destruct (landing_page_sends_members_to_dashboard ∅ Scenario.store Scenario.bot
              (Scenario.request None 1000 GET_root)) as (_ & _ & Hanonymous);
    [reflexivity |].
  split.
  - apply (Hmember Scenario.alice). vm_compute. reflexivity.
  - apply Hanonymous. reflexivity.
Defined.

Lemma landing_and_dashboard_do_not_loop_witness :
  exists res,
    response_of
      (handle ∅
         (store_of (handle ∅ Scenario.store Scenario.bot
                      (Scenario.request (Some "s1") 1000 GET_root)))
         Scenario.bot (Scenario.request (Some "s1") 2000 GET_dashboard)) = inr res /\
    is_redirect res = false.
Proof.
  apply (landing_and_dashboard_do_not_loop ∅ Scenario.store Scenario.bot
           (Scenario.request (Some "s1") 1000 GET_root) Scenario.bot
           (Scenario.request (Some "s1") 2000 GET_dashboard)).
  - reflexivity.
  - reflexivity.
  - reflexivity.
  - vm_compute. reflexivity.
  - vm_compute. reflexivity.
Defined.

Lemma session_rolls_forward_witness :
  identity
    (store_of (handle ∅ Scenario.store Scenario.bot
                 (Scenario.request (Some "s1") 604799999 GET_privacy)))
    (Scenario.request (Some "s1") 1209599998 GET_dashboard) = Some Scenario.alice /\
  identity
    (store_of (handle ∅ Scenario.store Scenario.bot
                 (Scenario.request (Some "s1") 604799999 GET_privacy)))
    (Scenario.request (Some "s1") 1209599999 GET_dashboard) = None.
Proof.
  destruct (session_rolls_forward ∅ Scenario.store Scenario.bot
              (Scenario.request (Some "s1") 604799999 GET_privacy) Scenario.alice
              (Scenario.request (Some "s1") 1209599998 GET_dashboard))
    as [Hbefore _]; [reflexivity | vm_compute; reflexivity | reflexivity |].
  destruct (session_rolls_forward ∅ Scenario.store Scenario.bot
              (Scenario.request (Some "s1") 604799999 GET_privacy) Scenario.alice
              (Scenario.request (Some "s1") 1209599999 GET_dashboard))
    as [_ Hafter]; [reflexivity | vm_compute; reflexivity | reflexivity |].
  split.
  - apply Hbefore. vm_compute. reflexivity.
  - apply Hafter. vm_compute. discriminate.
Defined.

Lemma login_establishes_session_witness :
  response_of (handle ∅ ∅ Scenario.bot
                 (Scenario.request None 0 (GET_auth_callback (AuthSuccess Scenario.alice)))) =
    inr (Res.redirect "/dashboard") /\
  identity
    (store_of (handle ∅ ∅ Scenario.bot
                 (Scenario.request None 0 (GET_auth_callback (AuthSuccess Scenario.alice)))))
    (Scenario.request (Some "s2") 1000 GET_dashboard) = Some Scenario.alice.
Proof.
  destruct (login_establishes_session ∅ ∅ Scenario.bot
              (Scenario.request None 0 (GET_auth_callback (AuthSuccess Scenario.alice)))
              Scenario.alice eq_refl) as (Hres & _ & _ & _ & Hlater).
  split; [exact Hres |]. apply Hlater; [reflexivity | vm_compute; reflexivity].
Defined.

Lemma login_then_logout_leaves_userless_session_witness :
  store_of
    (handle ∅
       (store_of (handle ∅ Scenario.store Scenario.bot
                    (Scenario.request None 0 (GET_auth_callback (AuthSuccess Cases.bob)))))
       Scenario.bot (Cases.request "s5" (Some "s2") 1000 GET_auth_logout)) =
    <["s5" := {| Session.user := None; Session.expires := 1000 + maxAge |}]> Scenario.store /\
  identity
    (store_of
       (handle ∅
          (store_of (handle ∅ Scenario.store Scenario.bot
                       (Scenario.request None 0 (GET_auth_callback (AuthSuccess Cases.bob)))))
          Scenario.bot (Cases.request "s5" (Some "s2") 1000 GET_auth_logout)))
    (Scenario.request (Some "s5") 2000 GET_dashboard) = None.
Proof.
  destruct (login_then_logout_leaves_userless_session ∅ Scenario.store Scenario.bot
              (Scenario.request None 0 (GET_auth_callback (AuthSuccess Cases.bob)))
              Scenario.bot (Cases.request "s5" (Some "s2") 1000 GET_auth_logout) Cases.bob)
    as [Hstore Hidentity].
  - reflexivity.
  - exact I.
  - vm_compute. reflexivity.
  - reflexivity.
  - reflexivity.
  - split; [exact Hstore |]. rewrite Hidentity; vm_compute; reflexivity.
Defined.

Lemma oauth_error_resets_session_witness :
  response_of (handle ∅ Scenario.store Scenario.bot
                 (Scenario.request (Some "s1") 1000
                    (GET_auth_callback (AuthError "TokenError")))) =
    inr (Res.redirect "/auth/login") /\
  no_session
    (store_of (handle ∅ Scenario.store Scenario.bot
                 (Scenario.request (Some "s1") 1000
                    (GET_auth_callback (AuthError "TokenError")))))
    (Some "s1").
Proof.
  apply (oauth_error_resets_session ∅ Scenario.store Scenario.bot
           (Scenario.request (Some "s1") 1000 (GET_auth_callback (AuthError "TokenError")))
           "TokenError").
  - left. reflexivity.
  - left. reflexivity.
Defined.

Lemma other_sessions_are_untouched_witness :
  store_of (handle ∅ Cases.store Scenario.bot
              (Scenario.request (Some "s3") 1000 GET_auth_logout)) !! "s4" =
    Cases.store !! "s4".
Proof.
  apply (other_sessions_are_untouched ∅ Cases.store Scenario.bot
           (Scenario.request (Some "s3") 1000 GET_auth_logout) "s4").
  - simpl. discriminate.
  - reflexivity.
Defined.

Lemma identities_come_from_logins_witness :
  exists sid,
    Some "s2" = Some sid /\
    (holds_user ∅ sid Scenario.alice \/
     Exists (fun '(_, r) => authenticates sid Scenario.alice r)
       [(Scenario.bot,
         Scenario.request None 0 (GET_auth_callback (AuthSuccess Scenario.alice)));
        (Scenario.down, Scenario.request (Some "s2") 1000 GET_dashboard)]).
Proof.
  apply (identities_come_from_logins ∅ ∅
           [(Scenario.bot,
             Scenario.request None 0 (GET_auth_callback (AuthSuccess Scenario.alice)));
            (Scenario.down, Scenario.request (Some "s2") 1000 GET_dashboard)]
           (Scenario.request (Some "s2") 2000 GET_dashboard) Scenario.alice).
  vm_compute. reflexivity.
Defined.

Lemma selector_without_manageable_guilds_witness :
  response_of (handle ∅ Cases.store Cases.hang_up
                 (Scenario.request (Some "s3") 1000 GET_dashboard)) =
    inr (selector_page ∅ (Some Cases.newcomer) []) /\
  http_requests
    (trace_of (handle ∅ Cases.store Cases.hang_up
                 (Scenario.request (Some "s3") 1000 GET_dashboard))) =
    [bot_guilds_request ∅].
Proof.
  apply (selector_without_manageable_guilds ∅ Cases.store Cases.hang_up
           (Scenario.request (Some "s3") 1000 GET_dashboard) Cases.newcomer).
  - reflexivity.
  - vm_compute. reflexivity.
  - constructor.
  - reflexivity.
Defined.

Lemma selector_fails_before_any_call_on_bad_permissions_witness :
  response_of (handle ∅ Cases.store Scenario.bot
                 (Scenario.request (Some "s4") 1000 GET_dashboard)) =
    inr (Res.send 500 "Error loading dashboard") /\
  http_requests
    (trace_of (handle ∅ Cases.store Scenario.bot
                 (Scenario.request (Some "s4") 1000 GET_dashboard))) = [].
Proof.
  destruct (selector_fails_before_any_call_on_bad_permissions ∅ Cases.store Scenario.bot
              (Scenario.request (Some "s4") 1000 GET_dashboard) Cases.bob)
    as (Hres & Hcalls & _).
  - reflexivity.
  - vm_compute. reflexivity.
  - intros Hall. inversion Hall as [| g gs _ Hrest]; subst.
    inversion Hrest as [| g' gs' [z Hz] _]; subst. discriminate Hz.
  - split; assumption.
Defined.

Lemma bot_presence_is_exact_id_membership_witness :
  response_of (handle ∅ Scenario.store Scenario.bot
                 (Scenario.request (Some "s1") 1000 GET_dashboard)) =
    inr (selector_page ∅ (Some Scenario.alice) (Scenario.entries true)).
Proof.
  destruct (bot_presence_is_exact_id_membership ∅ Scenario.store Scenario.bot
              (Scenario.request (Some "s1") 1000 GET_dashboard) Scenario.alice
              (Js.Obj [("guilds", Js.Arr [Js.Prim (Js.Str "A")])])
              [Js.Prim (Js.Str "A")])
    as (entries & Hres & _ & _).
  - reflexivity.
  - vm_compute. reflexivity.
  - repeat constructor; eexists; vm_compute; reflexivity.
  - reflexivity.
  - reflexivity.
  - vm_compute. reflexivity.
Defined.

Lemma bot_guilds_answer_without_list_witness :
  exists entries,
    response_of (handle ∅ Scenario.store Cases.null_body
                   (Scenario.request (Some "s1") 1000 GET_dashboard)) =
      inr (selector_page ∅ (Some Scenario.alice) entries) /\
    Forall (fun e => GuildEntry.botInGuild e = false) entries /\
    trace_of (handle ∅ Scenario.store Cases.null_body
                (Scenario.request (Some "s1") 1000 GET_dashboard)) =
      [HttpRequest (bot_guilds_request ∅); bot_guilds_failure_line Js.TypeError].
Proof.
  destruct (bot_guilds_answer_without_list ∅ Scenario.store Cases.null_body
              (Scenario.request (Some "s1") 1000 GET_dashboard) Scenario.alice
              (Js.Prim Js.Null))
    as (entries & Hres & Hfalse & _ & Htrace).
  - reflexivity.
  - vm_compute. reflexivity.
  - repeat constructor; eexists; vm_compute; reflexivity.
  - reflexivity.
  - exact I.
  - exists entries. repeat split; assumption.
Defined.

Lemma every_view_gets_botConfig_and_user_witness :
  local "botConfig"
    [("user", LUser (Some Scenario.alice)); ("guilds", LGuilds (Scenario.entries true));
     ("botConfig", LBotConfig (BOT_CONFIG ∅)); ("page", LText (Some "selector"))] =
    Some (LBotConfig (BOT_CONFIG ∅)) /\
  exists u,
    local "user"
      [("user", LUser (Some Scenario.alice)); ("guilds", LGuilds (Scenario.entries true));
       ("botConfig", LBotConfig (BOT_CONFIG ∅)); ("page", LText (Some "selector"))] =
      Some (LUser u).
Proof.
  apply (every_view_gets_botConfig_and_user ∅ Scenario.store Scenario.bot
           (Scenario.request (Some "s1") 1000 GET_dashboard)
           (selector_page ∅ (Some Scenario.alice) (Scenario.entries true)) "selector").
  - vm_compute. reflexivity.
  - reflexivity.
Defined.
